(** * add-opt-in: inserting the telemetry opt-in tag into a SWF stream

    A shallow embedding of [add-opt-in.go] and the properties of its tag
    framing ([peekTag]), of the synthesized tag ([writeTelemetryTag]) and of
    the rewriting pass of [main].

    Conventions of the embedding.
    - A byte is a [Byte.byte]; a [uint8], [uint16] or [uint32] is a [Z] in
      its range, every wrap-around is written out with [mod].
    - An [io.Reader] is the list of the bytes it still delivers.  The
      errors of [binary.Read] and [io.ReadFull] are discarded by the
      program wherever this embedding discards them, so a reader that has
      failed and a reader at end of file behave alike: both deliver nothing.
    - An [io.Writer] is the list of the bytes written to it so far.
    - The operating-system part of [main] (arguments, opening the file,
      the scratch file, [Stat], [Chmod], [Rename]) is not modelled; [main]
      below starts at the read of the header and ends with the contents of
      the scratch file at the time it would be renamed. *)

From Stdlib Require Import ZArith List Bool Lia.
From Stdlib.Strings Require Import Byte.
Import ListNotations.
Local Open Scope Z_scope.

(** ** Bytes and little-endian integers *)

Definition byteVal (b : byte) : Z := Z.of_N (Byte.to_N b).

Definition byteOf (z : Z) : byte :=
  match Byte.of_N (Z.to_N (z mod 256)) with
  | Some b => b
  | None => x00
  end.

Definition wrap16 (z : Z) : Z := z mod 2 ^ 16.
Definition wrap32 (z : Z) : Z := z mod 2 ^ 32.

(** [binary.LittleEndian.Uint16] and [Uint32]. *)
Definition leUint16 (b0 b1 : byte) : Z :=
  Z.lor (byteVal b0) (Z.shiftl (byteVal b1) 8).

Definition leUint32 (b0 b1 b2 b3 : byte) : Z :=
  Z.lor (Z.lor (Z.lor (byteVal b0) (Z.shiftl (byteVal b1) 8))
               (Z.shiftl (byteVal b2) 16))
        (Z.shiftl (byteVal b3) 24).

(** [binary.Write] of a [uint8], [uint16], [uint32]: the bytes put on the
    writer. *)
Definition binaryWrite8 (v : Z) : list byte := [byteOf v].

Definition binaryWrite16 (v : Z) : list byte :=
  [byteOf v; byteOf (Z.shiftr v 8)].

Definition binaryWrite32 (v : Z) : list byte :=
  [byteOf v; byteOf (Z.shiftr v 8); byteOf (Z.shiftr v 16);
   byteOf (Z.shiftr v 24)].

(** [binary.Read] into a freshly declared variable.  The call reads the
    whole width with [io.ReadFull]; when the reader runs short the bytes that
    were there are consumed, the error is returned (and dropped by every
    caller below) and the variable keeps its zero value. *)
Definition binaryRead8 (r : list byte) : Z * list byte :=
  match r with
  | b0 :: r' => (byteVal b0, r')
  | _ => (0, [])
  end.

Definition binaryRead16 (r : list byte) : Z * list byte :=
  match r with
  | b0 :: b1 :: r' => (leUint16 b0 b1, r')
  | _ => (0, [])
  end.

Definition binaryRead32 (r : list byte) : Z * list byte :=
  match r with
  | b0 :: b1 :: b2 :: b3 :: r' => (leUint32 b0 b1 b2 b3, r')
  | _ => (0, [])
  end.

(** [buf := make([]byte, n); io.ReadFull(reader, buf)]: the buffer starts
    zeroed and is filled with what the reader has; the result is the buffer
    and the reader after the call. *)
Definition ioReadFull (n : nat) (r : list byte) : list byte * list byte :=
  (firstn n r ++ repeat x00 (n - length r), skipn n r).

(** ** Constants *)

Definition TAG_TELEMETRY : Z := 93.
Definition TAG_SIGNED_SWF : Z := 94.
Definition TAG_FILE_ATTRIBUTES : Z := 69.
Definition TAG_META : Z := 77.
Definition TAG_END : Z := 0.
Definition LONG_TAG_LENGTH : Z := 63.

(** "FWS", "CWS", "ZWS". *)
Definition NO_COMPRESSION : list byte := [x46; x57; x53].
Definition ZLIB_COMPRESSION : list byte := [x43; x57; x53].
Definition LZMA_COMPRESSION : list byte := [x5a; x57; x53].

Fixpoint bytes_eqb (a b : list byte) : bool :=
  match a, b with
  | [], [] => true
  | x :: a', y :: b' => Byte.eqb x y && bytes_eqb a' b'
  | _, _ => false
  end.

(** ** [peekTag] *)

(** The result is the tag type, the bytes of [tagBuffer] and the reader
    after the call. *)
Definition peekTag (reader : list byte) : Z * list byte * list byte :=
  let '(tagCodeAndLength, r1) := binaryRead16 reader in
  let tagBuffer := binaryWrite16 tagCodeAndLength in
  let tagType := Z.shiftr tagCodeAndLength 6 in
  let tagLength := Z.land tagCodeAndLength 63 in
  let '(tagLength, tagBuffer, r2) :=
    if LONG_TAG_LENGTH <=? tagLength then
      let '(longLength, r2) := binaryRead32 r1 in
      (longLength, tagBuffer ++ binaryWrite32 longLength, r2)
    else (tagLength, tagBuffer, r1) in
  let '(tagData, r3) := ioReadFull (Z.to_nat tagLength) r2 in
  (tagType, tagBuffer ++ tagData, r3).

(** ** The state of the rewriting pass *)

Record state : Type := mkState {
  reader : list byte;                (* what [reader] still delivers *)
  writer : list byte;                (* what was written to [writer] *)
  headerUncompressedLength : Z       (* the uint32 running counter *)
}.

(** [writer.Write(data); headerUncompressedLength += uint32(len(data))]. *)
Definition copyTag (data : list byte) (st : state) : state :=
  mkState (reader st) (writer st ++ data)
          (wrap32 (headerUncompressedLength st
                   + wrap32 (Z.of_nat (length data)))).

Definition setReader (r : list byte) (st : state) : state :=
  mkState r (writer st) (headerUncompressedLength st).

(** A step of [writeTelemetryTag]: a [binary.Write] of [bytes] followed by
    [*headerSize += n]. *)
Definition emit (bytes : list byte) (n : Z) (st : state) : state :=
  mkState (reader st) (writer st ++ bytes)
          (wrap32 (headerUncompressedLength st + n)).

(** ** [writeTelemetryTag] *)

Definition writeTelemetryTag (st : state) : state :=
  let tagLength := 2 in
  let tagCodeAndLength := TAG_TELEMETRY in
  let st :=
    if LONG_TAG_LENGTH <=? tagLength then
      let tagCodeAndLength :=
        Z.lor (wrap16 (Z.shiftl tagCodeAndLength 6)) 63 in
      let st := emit (binaryWrite16 tagCodeAndLength) 0 st in
      let st := emit (binaryWrite16 tagLength) 2 st in
      emit [] 4 st
    else
      let tagCodeAndLength :=
        Z.lor (wrap16 (Z.shiftl tagCodeAndLength 6)) tagLength in
      emit (binaryWrite16 tagCodeAndLength) 2 st in
  let reservedPadding := 0 in
  emit (binaryWrite16 reservedPadding) 2 st.

(** ** The scanning loop of [main] *)

Inductive panic : Type :=
| TelemetryAlreadyEnabled   (* "Bad SWF: Telemetry is already enabled on this SWF" *)
| SignedNotSupported.       (* "Bad SWF: Signed SWFs are not supported" *)

(** One turn of the [for] loop; [continue] is what the loop does from the
    next turn on.  [Some (inl p)] when the turn panics, [Some (inr st)] when
    it leaves the loop through [break]. *)
Definition loopBody (continue : state -> option (panic + state))
  (st : state) : option (panic + state) :=
  let '(tagType, tagData, r1) := peekTag (reader st) in
  let st := setReader r1 st in
  if tagType =? TAG_TELEMETRY then Some (inl TelemetryAlreadyEnabled)
  else if tagType =? TAG_SIGNED_SWF then Some (inl SignedNotSupported)
  else if tagType =? TAG_FILE_ATTRIBUTES then
    let st := copyTag tagData st in
    let '(nextTagType, nextTagData, r2) := peekTag (reader st) in
    let st := setReader r2 st in
    let st := if nextTagType =? TAG_META then copyTag nextTagData st
              else st in
    let st := writeTelemetryTag st in
    let st := if negb (nextTagType =? TAG_META) then copyTag nextTagData st
              else st in
    continue st
  else if tagType =? TAG_END then Some (inr (copyTag tagData st))
  else continue (copyTag tagData st).

(** The loop, with [fuel] bounding the number of turns: [None] when the
    fuel runs out. *)
Fixpoint scan (fuel : nat) (st : state) : option (panic + state) :=
  match fuel with
  | O => None
  | S fuel' => loopBody (scan fuel') st
  end.

(** Every turn of the loop that does not leave it consumes input, so one
    more turn than there are bytes is always enough (see [scan_fuel] and
    [scanLoop_total]). *)
Definition scanLoop (st : state) : option (panic + state) :=
  scan (S (length (reader st))) st.

(** ** [main] *)

Record SwfHeader : Type := mkSwfHeader {
  Signature : list byte;     (* [3]uint8 *)
  Version : byte;
  FileLength : Z             (* uint32 *)
}.

(** [binary.Write(outFile, binary.LittleEndian, &swfHeader)]. *)
Definition writeSwfHeader (h : SwfHeader) : list byte :=
  Signature h ++ [Version h] ++ binaryWrite32 (FileLength h).

(** [compress/zlib], which is not part of this program, as a parameter. *)
Record Zlib : Type := mkZlib {
  (* [zlib.NewReader(f)]: [None] when it returns an error, else the bytes
     the reader delivers before it ends or fails *)
  zlibNewReader : list byte -> option (list byte);
  (* what a [zlib.NewWriter] has put on the file under it once it is
     closed, from the bytes written to it *)
  zlibWriter : list byte -> list byte
}.

(** What [writer] is bound to. *)
Inductive sink : Type :=
| ToOutFile      (* [writer = outFile] *)
| ToZlibWriter.  (* [writer = zlib.NewWriter(outFile)] *)

(** The ways [main] ends. *)
Inductive outcome : Type :=
| HeaderReadError            (* [binary.Read] of the header fails; printed *)
| ZlibError                  (* [zlib.NewReader] fails; printed *)
| NotSupportedYet            (* "ZWS": prints "Not supported yet" *)
| NilDereference             (* run-time panic: [Read] on the nil [reader] *)
| OutOfFuel                  (* never returned, see [main_never_OutOfFuel] *)
| Panicked (p : panic)
| Done (outFile : list byte)       (* the scratch file, as it is renamed *)
       (uncompressed : list byte)  (* header and all bytes given to [writer] *)
       (finalLength : Z).          (* the counter printed at the end *)

(** The [if / else if] chain on [compressionType]: either [main] returns,
    or it goes on with [reader] and [writer], which are nil ([None]) when no
    branch has assigned them. *)
Definition selectStreams (z : Zlib) (compressionType rest : list byte)
  : outcome + (option (list byte) * option sink) :=
  if bytes_eqb compressionType NO_COMPRESSION then
    inr (Some rest, Some ToOutFile)
  else if bytes_eqb compressionType ZLIB_COMPRESSION then
    match zlibNewReader z rest with
    | None => inl ZlibError
    | Some r => inr (Some r, Some ToZlibWriter)
    end
  else if bytes_eqb compressionType LZMA_COMPRESSION then
    inl NotSupportedYet
  else inr (None, None).

(** [var nBits uint8 = (frameSize & 0xff) >> 3]. *)
Definition nBitsOf (frameSize : Z) : Z :=
  Z.shiftr (Z.land frameSize 255) 3.

(** [var numberOfBytes uint32 = (7 + (uint32(nBits) * 4) - 3) / 8]. *)
Definition numberOfBytes (nBits : Z) : Z :=
  wrap32 (wrap32 (7 + wrap32 (nBits * 4)) - 3) / 8.

(** The RECT structure, the frame rate and the frame count: read from
    [reader], written to [writer], counted. *)
Definition frameHeader (st : state) : state :=
  let '(frameSize, r1) := binaryRead8 (reader st) in
  let st := setReader r1 st in
  let nBits := nBitsOf frameSize in
  let numberOfBytes := numberOfBytes nBits in
  let '(frameData, r2) := ioReadFull (Z.to_nat numberOfBytes) (reader st) in
  let st := setReader r2 st in
  let st := emit (binaryWrite8 frameSize) 0 st in
  let st := emit frameData 0 st in
  let st := emit [] 1 st in
  let st := emit [] numberOfBytes st in
  let '(frameRate, r3) := binaryRead16 (reader st) in
  let '(frameCount, r4) := binaryRead16 r3 in
  let st := setReader r4 st in
  let st := emit (binaryWrite16 frameRate) 0 st in
  let st := emit (binaryWrite16 frameCount) 0 st in
  let st := emit [] 2 st in
  emit [] 2 st.

(** [outFile.Seek(4, os.SEEK_SET); binary.Write(outFile, ..., v)]. *)
Definition patchLength (outFile : list byte) (v : Z) : list byte :=
  firstn 4 outFile ++ binaryWrite32 v ++ skipn 8 outFile.

Definition main (z : Zlib) (swfFile : list byte) : outcome :=
  match swfFile with
  | s0 :: s1 :: s2 :: v :: l0 :: l1 :: l2 :: l3 :: rest =>
    let swfHeader := mkSwfHeader [s0; s1; s2] v (leUint32 l0 l1 l2 l3) in
    let compressionType := Signature swfHeader in
    match selectStreams z compressionType rest with
    | inl stop => stop
    | inr (reader, writer') =>
      (* the header goes to [outFile], not through [writer] *)
      let header := writeSwfHeader swfHeader in
      match reader with
      | None => NilDereference
      | Some r =>
        let st := mkState r [] 0 in
        let st := emit [] 8 st in
        let st := frameHeader st in
        match scanLoop st with
        | None => OutOfFuel
        | Some (inl p) => Panicked p
        | Some (inr st) =>
          let body := match writer' with
                      | Some ToZlibWriter => zlibWriter z (writer st)
                      | _ => writer st
                      end in
          Done (patchLength (header ++ body) (headerUncompressedLength st))
               (header ++ writer st)
               (headerUncompressedLength st)
        end
      end
    end
  | _ => HeaderReadError
  end.

(** ** Bytes written and counted

    The state after [bytes] have gone to [writer] and have been counted,
    with [r] left to read; the turns of the loop and the steps before it are
    compared with this (see [loopBody_written]). *)

Definition counted (bytes : list byte) (c : Z) : Z :=
  wrap32 (c + Z.of_nat (length bytes)).

Definition written (bytes r : list byte) (st : state) : state :=
  mkState r (writer st ++ bytes) (counted bytes (headerUncompressedLength st)).

(** ** The wire format of a record

    A record as the format describes it: a 10-bit type, one of the two
    length encodings and the payload.  [encodeTag] is its wire encoding: a
    16-bit little-endian word with the type in the high 10 bits and the
    length in the low 6; in the long form the low 6 bits are 63 and a 32-bit
    little-endian length follows.  This is the format [peekTag] reads (see
    its comment in the source) and the short form is what
    [writeTelemetryTag] puts out ([telemetryBytes_encode]). *)

Record tag : Type := mkTag {
  tagCode : Z;
  tagLong : bool;
  tagPayload : list byte
}.

Definition payloadLength (t : tag) : Z := Z.of_nat (length (tagPayload t)).

Definition validTag (t : tag) : bool :=
  (0 <=? tagCode t) && (tagCode t <? 1024) &&
  (if tagLong t then payloadLength t <? 2 ^ 32 else payloadLength t <? 63).

Definition encodeTag (t : tag) : list byte :=
  if tagLong t then
    binaryWrite16 (tagCode t * 64 + 63) ++ binaryWrite32 (payloadLength t)
      ++ tagPayload t
  else
    binaryWrite16 (tagCode t * 64 + payloadLength t) ++ tagPayload t.

Fixpoint encodeBody (ts : list tag) : list byte :=
  match ts with
  | [] => []
  | t :: ts' => encodeTag t ++ encodeBody ts'
  end.

(** The end record, and the record [writeTelemetryTag] puts out. *)
Definition END : tag := mkTag TAG_END false [].
Definition TELEMETRY : tag := mkTag TAG_TELEMETRY false [x00; x00].

Definition telemetryBytes : list byte :=
  writer (writeTelemetryTag (mkState [] [] 0)).

Definition hasCode (c : Z) (t : tag) : bool := tagCode t =? c.

(** A record the loop copies and does nothing else with. *)
Definition passThrough (t : tag) : bool :=
  negb (hasCode TAG_TELEMETRY t) && negb (hasCode TAG_SIGNED_SWF t) &&
  negb (hasCode TAG_FILE_ATTRIBUTES t) && negb (hasCode TAG_END t).

(** A record that is neither a file-attributes record nor the end
    record. *)
Definition notAnchorNorEnd (t : tag) : bool :=
  negb (hasCode TAG_FILE_ATTRIBUTES t) && negb (hasCode TAG_END t).

(** A record that neither ends the stream nor makes the loop panic. *)
Definition harmless (t : tag) : bool :=
  negb (hasCode TAG_TELEMETRY t) && negb (hasCode TAG_SIGNED_SWF t) &&
  negb (hasCode TAG_END t).

(** Every file-attributes record of the list has a record after it, and
    that record is not a file-attributes record. *)
Fixpoint anchorsSeparated (ts : list tag) : bool :=
  match ts with
  | [] => true
  | t :: rest =>
    (if hasCode TAG_FILE_ATTRIBUTES t then
       match rest with
       | [] => false
       | n :: _ => negb (hasCode TAG_FILE_ATTRIBUTES n)
       end
     else true) && anchorsSeparated rest
  end.

(** The insertion as the specification words it: after every
    file-attributes record a telemetry record, which goes behind the metadata
    record when one follows at once. *)
Fixpoint insertTelemetry (ts : list tag) : list tag :=
  match ts with
  | [] => []
  | t :: rest =>
    if hasCode TAG_FILE_ATTRIBUTES t then
      match rest with
      | m :: rest' =>
        if hasCode TAG_META m then t :: m :: TELEMETRY :: insertTelemetry rest'
        else t :: TELEMETRY :: insertTelemetry rest
      | [] => [t; TELEMETRY]
      end
    else t :: insertTelemetry rest
  end.

Definition countCode (c : Z) (ts : list tag) : nat :=
  length (filter (hasCode c) ts).

(** The length field of a file: bytes 4 to 7 read as a little-endian
    [uint32]. *)
Definition lengthField (file : list byte) : option Z :=
  match skipn 4 file with
  | b0 :: b1 :: b2 :: b3 :: _ => Some (leUint32 b0 b1 b2 b3)
  | _ => None
  end.

(** Rounding a quotient up. *)
Definition ceilDiv (a b : Z) : Z := - ((- a) / b).

(** ** Sample files *)

Module Samples.

(** A codec that leaves the bytes as they are, to run [main] with. *)
Definition stored : Zlib := mkZlib (fun b => Some b) (fun b => b).

(** "FWS", version 10, a length field still to be patched. *)
Definition plainHeader : list byte :=
  [x46; x57; x53; x0a; x00; x00; x00; x00].

(** An empty RECT ([nBits = 0]), frame rate 1, frame count 2. *)
Definition frame : list byte := [x00; x01; x00; x02; x00].

Definition fileAttributes : tag :=
  mkTag TAG_FILE_ATTRIBUTES false [x08; x00; x00; x00].
Definition metadata : tag := mkTag TAG_META false [x3c; x2f; x3e; x00].
Definition setBackgroundColor : tag := mkTag 9 false [xff; xff; xff].
Definition showFrame : tag := mkTag 1 false [].

(** An uncompressed file with the records [ts]. *)
Definition plainFile (ts : list tag) : list byte :=
  plainHeader ++ frame ++ encodeBody ts.

(** A file whose signature is "ABC". *)
Definition unknownSignatureFile : list byte :=
  [x41; x42; x43; x0a; x00; x00; x00; x00] ++ frame ++ encodeBody [END].

(** A file that stops inside the payload of its file-attributes
    record: 4 bytes declared, 1 there. *)
Definition cutFile : list byte :=
  plainHeader ++ frame ++ [x44; x11; x08].

(** A file with one record in the long form and the end record. *)
Definition longRecordFile (payload : list byte) : list byte :=
  plainHeader ++ frame ++ encodeTag (mkTag 1 true payload) ++ encodeTag END.

(** The longest payload the long form can declare, all zero. *)
Definition hugePayload : list byte := repeat x00 (Z.to_nat 4294967295).
Definition hugeFile : list byte := longRecordFile hugePayload.

End Samples.

(** * Properties *)

(** ** Bytes and little-endian integers *)

Lemma byteVal_range (b : byte) : 0 <= byteVal b < 256.
Proof.
  unfold byteVal. pose proof (Byte.to_N_bounded b). lia.
Qed.

Lemma byteOf_byteVal (b : byte) : byteOf (byteVal b) = b.
Proof.
  unfold byteOf. pose proof (byteVal_range b) as R.
  rewrite Z.mod_small by exact R.
  unfold byteVal. rewrite N2Z.id, Byte.of_to_N. reflexivity.
Qed.

Lemma byteVal_byteOf (z : Z) : byteVal (byteOf z) = z mod 256.
Proof.
  unfold byteOf.
  assert (R : 0 <= z mod 256 < 256) by (apply Z.mod_pos_bound; lia).
  destruct (Byte.of_N (Z.to_N (z mod 256))) as [b|] eqn:E.
  - apply Byte.to_of_N in E. unfold byteVal. rewrite E. lia.
  - apply Byte.of_N_None_iff in E. lia.
Qed.

Lemma byteOf_mod (z : Z) : byteOf (z mod 256) = byteOf z.
Proof.
  unfold byteOf. rewrite Z.mod_mod by lia. reflexivity.
Qed.

Lemma lor_shiftl_add (a b n : Z) :
  0 <= n -> 0 <= a < 2 ^ n -> Z.lor a (Z.shiftl b n) = a + b * 2 ^ n.
Proof.
  intros Hn Ha.
  assert (L : Z.land a (Z.shiftl b n) = 0).
  { apply Z.bits_inj'. intros m Hm. rewrite Z.land_spec, Z.bits_0.
    destruct (Z.lt_ge_cases m n) as [Lt|Ge].
    - rewrite (Z.shiftl_spec_low b n m Lt). apply andb_false_r.
    - rewrite <- (Z.mod_small a (2 ^ n)) by exact Ha.
      rewrite Z.mod_pow2_bits_high by lia. reflexivity. }
  rewrite <- Z.lxor_lor by exact L.
  rewrite <- Z.add_nocarry_lxor by exact L.
  rewrite Z.shiftl_mul_pow2 by exact Hn. reflexivity.
Qed.

Lemma leUint16_value (b0 b1 : byte) :
  leUint16 b0 b1 = byteVal b0 + byteVal b1 * 256.
Proof.
  unfold leUint16. pose proof (byteVal_range b0).
  rewrite lor_shiftl_add by lia. reflexivity.
Qed.

Lemma leUint32_value (b0 b1 b2 b3 : byte) :
  leUint32 b0 b1 b2 b3 =
  byteVal b0 + byteVal b1 * 256 + byteVal b2 * 65536 + byteVal b3 * 16777216.
Proof.
  unfold leUint32.
  pose proof (byteVal_range b0). pose proof (byteVal_range b1).
  pose proof (byteVal_range b2).
  rewrite (lor_shiftl_add (byteVal b0) (byteVal b1) 8) by lia.
  rewrite (lor_shiftl_add _ (byteVal b2) 16) by lia.
  rewrite (lor_shiftl_add _ (byteVal b3) 24) by lia.
  reflexivity.
Qed.

Lemma leUint16_range (b0 b1 : byte) : 0 <= leUint16 b0 b1 < 2 ^ 16.
Proof.
  rewrite leUint16_value.
  pose proof (byteVal_range b0). pose proof (byteVal_range b1). lia.
Qed.

Lemma leUint32_range (b0 b1 b2 b3 : byte) :
  0 <= leUint32 b0 b1 b2 b3 < 2 ^ 32.
Proof.
  rewrite leUint32_value.
  pose proof (byteVal_range b0). pose proof (byteVal_range b1).
  pose proof (byteVal_range b2). pose proof (byteVal_range b3). lia.
Qed.

(** The byte [k] places up in [v]. *)
Lemma byteOf_shiftr_digit (v k q r d : Z) :
  0 <= k -> v = (q * 256 + d) * 2 ^ k + r -> 0 <= r < 2 ^ k ->
  0 <= d < 256 -> byteOf (Z.shiftr v k) = byteOf d.
Proof.
  intros Hk Hv Hr Hd.
  rewrite Z.shiftr_div_pow2 by exact Hk.
  assert (E : v / 2 ^ k = q * 256 + d).
  { symmetry. apply (Z.div_unique_pos v (2 ^ k) _ r); [exact Hr | lia]. }
  rewrite E, <- byteOf_mod.
  replace ((q * 256 + d) mod 256) with d; [reflexivity|].
  symmetry. rewrite Z.add_comm, Z.mod_add by lia. apply Z.mod_small; exact Hd.
Qed.

Lemma binaryWrite8_read (b : byte) : binaryWrite8 (byteVal b) = [b].
Proof.
  unfold binaryWrite8. rewrite byteOf_byteVal. reflexivity.
Qed.

Lemma binaryWrite16_leUint16 (b0 b1 : byte) :
  binaryWrite16 (leUint16 b0 b1) = [b0; b1].
Proof.
  unfold binaryWrite16. rewrite leUint16_value.
  pose proof (byteVal_range b0) as R0. pose proof (byteVal_range b1) as R1.
  rewrite <- (Z.shiftr_0_r (byteVal b0 + byteVal b1 * 256)) at 1.
  rewrite (byteOf_shiftr_digit _ 0 (byteVal b1) 0 (byteVal b0)) by lia.
  rewrite (byteOf_shiftr_digit _ 8 0 (byteVal b0) (byteVal b1)) by lia.
  rewrite !byteOf_byteVal. reflexivity.
Qed.

Lemma binaryWrite32_leUint32 (b0 b1 b2 b3 : byte) :
  binaryWrite32 (leUint32 b0 b1 b2 b3) = [b0; b1; b2; b3].
Proof.
  unfold binaryWrite32. rewrite leUint32_value.
  pose proof (byteVal_range b0) as R0. pose proof (byteVal_range b1) as R1.
  pose proof (byteVal_range b2) as R2. pose proof (byteVal_range b3) as R3.
  set (v := byteVal b0 + byteVal b1 * 256 + byteVal b2 * 65536
            + byteVal b3 * 16777216).
  rewrite <- (Z.shiftr_0_r v) at 1.
  rewrite (byteOf_shiftr_digit v 0
             (byteVal b1 + byteVal b2 * 256 + byteVal b3 * 65536) 0
             (byteVal b0)) by (subst v; lia).
  rewrite (byteOf_shiftr_digit v 8 (byteVal b2 + byteVal b3 * 256)
             (byteVal b0) (byteVal b1)) by (subst v; lia).
  rewrite (byteOf_shiftr_digit v 16 (byteVal b3)
             (byteVal b0 + byteVal b1 * 256) (byteVal b2)) by (subst v; lia).
  rewrite (byteOf_shiftr_digit v 24 0
             (byteVal b0 + byteVal b1 * 256 + byteVal b2 * 65536)
             (byteVal b3)) by (subst v; lia).
  rewrite !byteOf_byteVal. reflexivity.
Qed.

(** Reading back what [binary.Write] has written. *)
Lemma leUint16_binaryWrite16 (v : Z) (r : list byte) :
  0 <= v < 2 ^ 16 -> binaryRead16 (binaryWrite16 v ++ r) = (v, r).
Proof.
  intros Hv. unfold binaryWrite16. cbn [app binaryRead16].
  rewrite leUint16_value, !byteVal_byteOf.
  rewrite Z.shiftr_div_pow2 by lia.
  f_equal. change (2 ^ 8) with 256.
  rewrite (Z.mod_small (v / 256)) by
    (split; [apply Z.div_pos; lia | apply Z.div_lt_upper_bound; lia]).
  pose proof (Z.div_mod v 256). lia.
Qed.

Lemma leUint32_binaryWrite32 (v : Z) (r : list byte) :
  0 <= v < 2 ^ 32 -> binaryRead32 (binaryWrite32 v ++ r) = (v, r).
Proof.
  intros Hv. unfold binaryWrite32. cbn [app binaryRead32].
  rewrite leUint32_value, !byteVal_byteOf.
  rewrite !Z.shiftr_div_pow2 by lia.
  f_equal.
  change (2 ^ 8) with 256. change (2 ^ 16) with 65536.
  change (2 ^ 24) with 16777216.
  pose proof (Z.div_mod v 256).
  pose proof (Z.mod_pos_bound v 256).
  pose proof (Z.div_mod (v / 256) 256).
  pose proof (Z.mod_pos_bound (v / 256) 256).
  pose proof (Z.div_mod (v / 65536) 256).
  pose proof (Z.mod_pos_bound (v / 65536) 256).
  assert (v / 65536 = v / 256 / 256) by (rewrite Z.div_div by lia; reflexivity).
  assert (v / 16777216 = v / 65536 / 256)
    by (rewrite Z.div_div by lia; reflexivity).
  assert (0 <= v / 16777216 < 256)
    by (split; [apply Z.div_pos; lia | apply Z.div_lt_upper_bound; lia]).
  rewrite (Z.mod_small (v / 16777216)) by lia.
  lia.
Qed.

(** ** [io.ReadFull] and [peekTag] *)

Lemma ioReadFull_app (p r : list byte) :
  ioReadFull (length p) (p ++ r) = (p, r).
Proof.
  unfold ioReadFull.
  rewrite firstn_app, firstn_all, Nat.sub_diag, length_app.
  replace (length p - (length p + length r))%nat with 0%nat by lia.
  rewrite skipn_app, skipn_all, Nat.sub_diag. cbn.
  rewrite !app_nil_r. reflexivity.
Qed.

Lemma ioReadFull_length (n : nat) (r : list byte) :
  length (fst (ioReadFull n r)) = n.
Proof.
  unfold ioReadFull. cbn [fst].
  rewrite length_app, length_firstn, repeat_length. lia.
Qed.

Lemma ioReadFull_rest (n : nat) (r : list byte) :
  (length (snd (ioReadFull n r)) <= length r)%nat.
Proof.
  unfold ioReadFull. cbn [snd]. rewrite length_skipn. lia.
Qed.

Lemma binaryRead32_rest (r : list byte) :
  (length (snd (binaryRead32 r)) <= length r)%nat.
Proof.
  destruct r as [|b0 [|b1 [|b2 [|b3 r]]]]; cbn; lia.
Qed.

Lemma tagWord_fields (code field : Z) :
  0 <= field < 64 ->
  Z.shiftr (code * 64 + field) 6 = code /\
  Z.land (code * 64 + field) 63 = field.
Proof.
  intros Hf. split.
  - rewrite Z.shiftr_div_pow2 by lia. change (2 ^ 6) with 64.
    symmetry. apply (Z.div_unique_pos _ 64 code field); lia.
  - change 63 with (Z.ones 6). rewrite Z.land_ones by lia.
    change (2 ^ 6) with 64.
    symmetry. apply (Z.mod_unique_pos _ 64 code field); lia.
Qed.

Lemma validTag_code (t : tag) : validTag t = true -> 0 <= tagCode t < 1024.
Proof.
  unfold validTag. rewrite !andb_true_iff. lia.
Qed.

Lemma validTag_length (t : tag) :
  validTag t = true ->
  if tagLong t then 0 <= payloadLength t < 2 ^ 32
  else 0 <= payloadLength t < 63.
Proof.
  unfold validTag, payloadLength. rewrite !andb_true_iff.
  destruct (tagLong t); lia.
Qed.

(** [peekTag] on a source that starts with a whole record: it returns the
    type and the very bytes of the record, and leaves what follows. *)
Lemma peekTag_encodeTag (t : tag) (r : list byte) :
  validTag t = true ->
  peekTag (encodeTag t ++ r) = (tagCode t, encodeTag t, r).
Proof.
  intros V. pose proof (validTag_code t V) as C.
  pose proof (validTag_length t V) as L.
  unfold peekTag, encodeTag. destruct (tagLong t).
  - rewrite <- !app_assoc.
    rewrite leUint16_binaryWrite16 by lia.
    destruct (tagWord_fields (tagCode t) 63) as [Ty Le]; [lia|].
    rewrite Ty, Le. cbn [Z.leb Z.compare LONG_TAG_LENGTH Pos.compare
                         Pos.compare_cont].
    rewrite leUint32_binaryWrite32 by exact L.
    unfold payloadLength. rewrite Nat2Z.id, ioReadFull_app.
    rewrite <- app_assoc. reflexivity.
  - rewrite <- !app_assoc.
    rewrite leUint16_binaryWrite16 by lia.
    destruct (tagWord_fields (tagCode t) (payloadLength t)) as [Ty Le]; [lia|].
    rewrite Ty, Le.
    replace (LONG_TAG_LENGTH <=? payloadLength t) with false
      by (symmetry; apply Z.leb_gt; unfold LONG_TAG_LENGTH; lia).
    unfold payloadLength. rewrite Nat2Z.id, ioReadFull_app. reflexivity.
Qed.

(** A call of [peekTag] never gives bytes back, and a call that does not
    return type 0 has taken at least the two bytes of the tag word. *)
Lemma peekTag_consumes (r : list byte) :
  let '(ty, _, r') := peekTag r in
  (length r' <= length r)%nat /\
  (ty <> 0 -> (length r' + 2 <= length r)%nat).
Proof.
  unfold peekTag.
  destruct r as [|b0 [|b1 r]]; cbn [binaryRead16].
  - cbn. split; [lia | intros H; exfalso; apply H; reflexivity].
  - cbn. split; [lia | intros H; exfalso; apply H; reflexivity].
  - destruct (LONG_TAG_LENGTH <=? Z.land (leUint16 b0 b1) 63).
    + pose proof (binaryRead32_rest r) as R4.
      destruct (binaryRead32 r) as [longLength r2]. cbn [snd] in R4.
      pose proof (ioReadFull_rest (Z.to_nat longLength) r2) as R.
      destruct (ioReadFull (Z.to_nat longLength) r2) as [d r3].
      cbn [snd length] in *. lia.
    + pose proof (ioReadFull_rest
                    (Z.to_nat (Z.land (leUint16 b0 b1) 63)) r) as R.
      destruct (ioReadFull (Z.to_nat (Z.land (leUint16 b0 b1) 63)) r)
        as [d r3].
      cbn [snd length] in *. lia.
Qed.

(** ** The loop: fuel and termination *)

Lemma writeTelemetryTag_reader (st : state) :
  reader (writeTelemetryTag st) = reader st.
Proof. reflexivity. Qed.

Lemma writeTelemetryTag_writer (st : state) :
  writer (writeTelemetryTag st) = writer st ++ telemetryBytes.
Proof.
  unfold telemetryBytes, writeTelemetryTag. cbn. rewrite <- app_assoc.
  reflexivity.
Qed.

Lemma telemetryBytes_encode : telemetryBytes = encodeTag TELEMETRY.
Proof. reflexivity. Qed.

(** A turn only ever continues with less input than it started with. *)
Lemma loopBody_ext (k1 k2 : state -> option (panic + state)) (st : state) :
  (forall st', (length (reader st') < length (reader st))%nat ->
               k1 st' = k2 st') ->
  loopBody k1 st = loopBody k2 st.
Proof.
  intros K. unfold loopBody.
  pose proof (peekTag_consumes (reader st)) as P.
  destruct (peekTag (reader st)) as [[ty d] r1]. destruct P as [_ P].
  destruct (ty =? TAG_TELEMETRY); [reflexivity|].
  destruct (ty =? TAG_SIGNED_SWF); [reflexivity|].
  destruct (ty =? TAG_FILE_ATTRIBUTES) eqn:FA.
  - apply Z.eqb_eq in FA. unfold TAG_FILE_ATTRIBUTES in FA.
    cbn [reader copyTag setReader].
    pose proof (peekTag_consumes r1) as P2.
    destruct (peekTag r1) as [[ty2 d2] r2]. destruct P2 as [P2 _].
    apply K. destruct (ty2 =? TAG_META); cbn; lia.
  - destruct (ty =? TAG_END) eqn:E; [reflexivity|].
    apply Z.eqb_neq in E. unfold TAG_END in E. apply K. cbn. lia.
Qed.

Lemma scan_fuel (f1 f2 : nat) (st : state) :
  (length (reader st) < f1)%nat -> (length (reader st) < f2)%nat ->
  scan f1 st = scan f2 st.
Proof.
  revert f2 st. induction f1 as [|f1 IH]; intros f2 st H1 H2; [lia|].
  destruct f2 as [|f2]; [lia|]. cbn [scan].
  apply loopBody_ext. intros st' Lt. apply IH; lia.
Qed.

Lemma scanLoop_unfold (st : state) : scanLoop st = loopBody scanLoop st.
Proof.
  unfold scanLoop at 1. cbn [scan].
  apply loopBody_ext. intros st' Lt. unfold scanLoop. apply scan_fuel; lia.
Qed.

(** The loop always ends: in a panic or through [break]. *)
Lemma scan_total (f : nat) (st : state) :
  (length (reader st) < f)%nat -> scan f st <> None.
Proof.
  revert st. induction f as [|f IH]; intros st H; [lia|].
  cbn [scan]. unfold loopBody.
  pose proof (peekTag_consumes (reader st)) as P.
  destruct (peekTag (reader st)) as [[ty d] r1]. destruct P as [_ P].
  destruct (ty =? TAG_TELEMETRY); [discriminate|].
  destruct (ty =? TAG_SIGNED_SWF); [discriminate|].
  destruct (ty =? TAG_FILE_ATTRIBUTES) eqn:FA.
  - apply Z.eqb_eq in FA. unfold TAG_FILE_ATTRIBUTES in FA.
    cbn [reader copyTag setReader].
    pose proof (peekTag_consumes r1) as P2.
    destruct (peekTag r1) as [[ty2 d2] r2]. destruct P2 as [P2 _].
    apply IH. destruct (ty2 =? TAG_META); cbn; lia.
  - destruct (ty =? TAG_END) eqn:E; [discriminate|].
    apply Z.eqb_neq in E. unfold TAG_END in E. apply IH. cbn. lia.
Qed.

Lemma scanLoop_total (st : state) : scanLoop st <> None.
Proof.
  unfold scanLoop. apply scan_total. lia.
Qed.

Lemma main_never_OutOfFuel (z : Zlib) (swfFile : list byte) :
  main z swfFile <> OutOfFuel.
Proof.
  unfold main.
  destruct swfFile as [|s0 [|s1 [|s2 [|v [|l0 [|l1 [|l2 [|l3 rest]]]]]]]];
    try discriminate.
  unfold selectStreams. cbn [Signature].
  destruct (bytes_eqb [s0; s1; s2] NO_COMPRESSION).
  - pose proof (scanLoop_total
                  (frameHeader (emit [] 8 (mkState rest [] 0)))) as T.
    destruct (scanLoop _) as [[p|st]|]; [discriminate..|contradiction].
  - destruct (bytes_eqb [s0; s1; s2] ZLIB_COMPRESSION).
    + destruct (zlibNewReader z rest) as [r|]; [|discriminate].
      pose proof (scanLoop_total
                    (frameHeader (emit [] 8 (mkState r [] 0)))) as T.
      destruct (scanLoop _) as [[p|st]|]; [discriminate..|contradiction].
    + destruct (bytes_eqb [s0; s1; s2] LZMA_COMPRESSION); discriminate.
Qed.

(** ** What a turn of the loop writes and counts *)

Lemma wrap32_add_l (a b : Z) : wrap32 (wrap32 a + b) = wrap32 (a + b).
Proof. unfold wrap32. apply Z.add_mod_idemp_l. lia. Qed.

Lemma wrap32_add_r (a b : Z) : wrap32 (a + wrap32 b) = wrap32 (a + b).
Proof. unfold wrap32. apply Z.add_mod_idemp_r. lia. Qed.

Lemma wrap32_range (a : Z) : 0 <= wrap32 a < 2 ^ 32.
Proof. unfold wrap32. apply Z.mod_pos_bound. lia. Qed.

Lemma counted_app (a b : list byte) (c : Z) :
  counted (a ++ b) c = counted b (counted a c).
Proof.
  unfold counted. rewrite wrap32_add_l, length_app, Nat2Z.inj_add.
  f_equal. lia.
Qed.

Lemma copyTag_written (d r : list byte) (st : state) :
  copyTag d (setReader r st) = written d r st.
Proof.
  unfold copyTag, written, counted. cbn. rewrite wrap32_add_r. reflexivity.
Qed.

Lemma writeTelemetryTag_written (st : state) :
  writeTelemetryTag st = written telemetryBytes (reader st) st.
Proof.
  unfold written. destruct st as [r w c].
  cbn [reader writer headerUncompressedLength].
  unfold writeTelemetryTag, emit, counted.
  cbn [reader writer headerUncompressedLength Z.leb Z.compare LONG_TAG_LENGTH
       Pos.compare Pos.compare_cont].
  rewrite wrap32_add_l, <- app_assoc.
  change (length telemetryBytes) with 4%nat.
  f_equal. f_equal. lia.
Qed.

Lemma written_written (b1 b2 r1 r2 : list byte) (st : state) :
  written b2 r2 (written b1 r1 st) = written (b1 ++ b2) r2 st.
Proof.
  unfold written. cbn. rewrite counted_app, app_assoc. reflexivity.
Qed.

Lemma copyTag_after (d b r : list byte) (st : state) :
  copyTag d (written b r st) = written (b ++ d) r st.
Proof.
  unfold copyTag, written. cbn [reader writer headerUncompressedLength].
  rewrite wrap32_add_r, counted_app, app_assoc. reflexivity.
Qed.

Lemma writeTelemetryTag_after (b r : list byte) (st : state) :
  writeTelemetryTag (written b r st) = written (b ++ telemetryBytes) r st.
Proof.
  rewrite writeTelemetryTag_written. apply written_written.
Qed.

Lemma setReader_written (b r1 r2 : list byte) (st : state) :
  setReader r2 (written b r1 st) = written b r2 st.
Proof. reflexivity. Qed.

(** A turn of the loop, by what it has written and counted when it hands
    over to the next turn. *)
Lemma loopBody_written (k : state -> option (panic + state)) (st : state) :
  loopBody k st =
  let '(tagType, tagData, r1) := peekTag (reader st) in
  if tagType =? TAG_TELEMETRY then Some (inl TelemetryAlreadyEnabled)
  else if tagType =? TAG_SIGNED_SWF then Some (inl SignedNotSupported)
  else if tagType =? TAG_FILE_ATTRIBUTES then
    let '(nextTagType, nextTagData, r2) := peekTag r1 in
    k (written (tagData ++
                (if nextTagType =? TAG_META
                 then nextTagData ++ telemetryBytes
                 else telemetryBytes ++ nextTagData)) r2 st)
  else if tagType =? TAG_END then Some (inr (written tagData r1 st))
  else k (written tagData r1 st).
Proof.
  unfold loopBody.
  destruct (peekTag (reader st)) as [[ty d] r1].
  destruct (ty =? TAG_TELEMETRY); [reflexivity|].
  destruct (ty =? TAG_SIGNED_SWF); [reflexivity|].
  rewrite copyTag_written.
  destruct (ty =? TAG_FILE_ATTRIBUTES); [|reflexivity].
  change (reader (written d r1 st)) with r1.
  destruct (peekTag r1) as [[ty2 d2] r2].
  rewrite setReader_written.
  destruct (ty2 =? TAG_META); cbn [negb].
  - rewrite copyTag_after, writeTelemetryTag_after, <- app_assoc.
    reflexivity.
  - rewrite writeTelemetryTag_after, copyTag_after, <- app_assoc.
    reflexivity.
Qed.

(** ** The loop on a source that starts with whole records *)

Lemma passThrough_codes (t : tag) :
  passThrough t = true ->
  (tagCode t =? TAG_TELEMETRY) = false /\
  (tagCode t =? TAG_SIGNED_SWF) = false /\
  (tagCode t =? TAG_FILE_ATTRIBUTES) = false /\
  (tagCode t =? TAG_END) = false.
Proof.
  unfold passThrough, hasCode. rewrite !andb_true_iff, !negb_true_iff. tauto.
Qed.

Lemma harmless_codes (t : tag) :
  harmless t = true ->
  (tagCode t =? TAG_TELEMETRY) = false /\
  (tagCode t =? TAG_SIGNED_SWF) = false /\
  (tagCode t =? TAG_END) = false.
Proof.
  unfold harmless, hasCode. rewrite !andb_true_iff, !negb_true_iff. tauto.
Qed.

Lemma scanLoop_passThrough (t : tag) (r : list byte) (st : state) :
  validTag t = true -> passThrough t = true ->
  reader st = encodeTag t ++ r ->
  scanLoop st = scanLoop (written (encodeTag t) r st).
Proof.
  intros V P R. destruct (passThrough_codes t P) as (T & S & F & E).
  rewrite scanLoop_unfold, loopBody_written, R, peekTag_encodeTag by exact V.
  rewrite T, S, F, E. reflexivity.
Qed.

Lemma scanLoop_end (t : tag) (r : list byte) (st : state) :
  validTag t = true -> tagCode t = TAG_END ->
  reader st = encodeTag t ++ r ->
  scanLoop st = Some (inr (written (encodeTag t) r st)).
Proof.
  intros V C R.
  rewrite scanLoop_unfold, loopBody_written, R, peekTag_encodeTag by exact V.
  rewrite C. reflexivity.
Qed.

Lemma scanLoop_telemetry (t : tag) (r : list byte) (st : state) :
  validTag t = true -> tagCode t = TAG_TELEMETRY ->
  reader st = encodeTag t ++ r ->
  scanLoop st = Some (inl TelemetryAlreadyEnabled).
Proof.
  intros V C R.
  rewrite scanLoop_unfold, loopBody_written, R, peekTag_encodeTag by exact V.
  rewrite C. reflexivity.
Qed.

(** The turn at a file-attributes record: the record after it is read
    and copied whatever its type is. *)
Lemma scanLoop_anchor (fa nxt : tag) (r : list byte) (st : state) :
  validTag fa = true -> tagCode fa = TAG_FILE_ATTRIBUTES ->
  validTag nxt = true ->
  reader st = encodeTag fa ++ encodeTag nxt ++ r ->
  scanLoop st =
  scanLoop (written (encodeTag fa ++
                     (if tagCode nxt =? TAG_META
                      then encodeTag nxt ++ telemetryBytes
                      else telemetryBytes ++ encodeTag nxt)) r st).
Proof.
  intros V C V' R.
  rewrite scanLoop_unfold, loopBody_written, R, peekTag_encodeTag by exact V.
  rewrite C. cbn [Z.eqb TAG_FILE_ATTRIBUTES TAG_TELEMETRY TAG_SIGNED_SWF
                  Pos.eqb].
  rewrite peekTag_encodeTag by exact V'. reflexivity.
Qed.

Lemma scanLoop_passThrough_list (pre : list tag) (b r0 r : list byte)
  (st : state) :
  forallb validTag pre = true -> forallb passThrough pre = true ->
  r0 = encodeBody pre ++ r ->
  scanLoop (written b r0 st) = scanLoop (written (b ++ encodeBody pre) r st).
Proof.
  revert b r0. induction pre as [|t pre IH]; intros b r0 V P R.
  - cbn in R. subst r0. cbn [encodeBody]. rewrite app_nil_r. reflexivity.
  - cbn [forallb] in V, P. apply andb_true_iff in V, P.
    destruct V as [Vt V], P as [Pt P].
    cbn [encodeBody] in *. rewrite <- app_assoc in R.
    rewrite (scanLoop_passThrough t (encodeBody pre ++ r)) by
      (try assumption; exact R).
    rewrite written_written.
    rewrite (IH (b ++ encodeTag t) (encodeBody pre ++ r)) by
      (try assumption; reflexivity).
    rewrite <- app_assoc. reflexivity.
Qed.

(** ** The counter against the bytes written *)

(** Whatever the input, a loop that ends through [break] has appended to
    [writer], and has counted what it appended. *)
Lemma scan_written (f : nat) (st st' : state) :
  scan f st = Some (inr st') ->
  exists out, st' = written out (reader st') st.
Proof.
  revert st. induction f as [|f IH]; intros st H; [discriminate|].
  cbn [scan] in H. rewrite loopBody_written in H.
  destruct (peekTag (reader st)) as [[ty d] r1].
  destruct (ty =? TAG_TELEMETRY); [discriminate|].
  destruct (ty =? TAG_SIGNED_SWF); [discriminate|].
  destruct (ty =? TAG_FILE_ATTRIBUTES).
  - destruct (peekTag r1) as [[ty2 d2] r2].
    apply IH in H. destruct H as [out H].
    rewrite written_written in H. eexists. exact H.
  - destruct (ty =? TAG_END).
    + injection H as <-. exists d. reflexivity.
    + apply IH in H. destruct H as [out H].
      rewrite written_written in H. eexists. exact H.
Qed.

Lemma numberOfBytes_nonneg (n : Z) : 0 <= numberOfBytes n.
Proof.
  unfold numberOfBytes. apply Z.div_pos; [|lia].
  apply wrap32_range.
Qed.

(** What the steps before the loop write and count, whatever the input. *)
Lemma frameHeader_written (st : state) :
  exists bytes, frameHeader st = written bytes (reader (frameHeader st)) st.
Proof.
  unfold frameHeader.
  destruct (binaryRead8 (reader st)) as [frameSize r1].
  cbn [reader setReader].
  pose proof (ioReadFull_length
                (Z.to_nat (numberOfBytes (nBitsOf frameSize))) r1) as L.
  destruct (ioReadFull (Z.to_nat (numberOfBytes (nBitsOf frameSize))) r1)
    as [frameData r2].
  cbn [fst] in L. cbn [reader setReader emit].
  destruct (binaryRead16 r2) as [frameRate r3].
  destruct (binaryRead16 r3) as [frameCount r4].
  exists (binaryWrite8 frameSize ++ frameData ++ binaryWrite16 frameRate
          ++ binaryWrite16 frameCount).
  unfold written, emit, counted.
  cbn [reader writer headerUncompressedLength setReader].
  rewrite !app_nil_r, <- !app_assoc.
  repeat (rewrite wrap32_add_l; rewrite <- ?Z.add_assoc).
  f_equal. f_equal.
  rewrite !length_app, L. cbn [length binaryWrite8 binaryWrite16].
  pose proof (numberOfBytes_nonneg (nBitsOf frameSize)). lia.
Qed.

Lemma frameHeader_frame (fs : byte) (fd : list byte) (r0 r1 c0 c1 : byte)
  (body : list byte) (st : state) :
  length fd = Z.to_nat (numberOfBytes (nBitsOf (byteVal fs))) ->
  reader st = fs :: fd ++ [r0; r1; c0; c1] ++ body ->
  frameHeader st = written (fs :: fd ++ [r0; r1; c0; c1]) body st.
Proof.
  intros L R. unfold frameHeader. rewrite R.
  cbn [binaryRead8 reader setReader].
  rewrite <- L, ioReadFull_app.
  cbn [reader setReader emit app binaryRead16].
  rewrite binaryWrite8_read, !binaryWrite16_leUint16.
  unfold written, emit, counted.
  cbn [reader writer headerUncompressedLength setReader].
  rewrite !app_nil_r, <- !app_assoc.
  repeat (rewrite wrap32_add_l; rewrite <- ?Z.add_assoc).
  f_equal. f_equal.
  cbn [app length]. rewrite length_app, L. cbn [length].
  pose proof (numberOfBytes_nonneg (nBitsOf (byteVal fs))). lia.
Qed.

(** ** [main] *)

(** [main] once [reader] and [writer] are chosen. *)
Lemma main_streams (z : Zlib) (s0 s1 s2 v l0 l1 l2 l3 : byte)
  (raw r : list byte) (w : option sink) :
  selectStreams z [s0; s1; s2] raw = inr (Some r, w) ->
  main z (s0 :: s1 :: s2 :: v :: l0 :: l1 :: l2 :: l3 :: raw) =
  match scanLoop (frameHeader (emit [] 8 (mkState r [] 0))) with
  | None => OutOfFuel
  | Some (inl p) => Panicked p
  | Some (inr st) =>
    Done (patchLength
            ([s0; s1; s2; v; l0; l1; l2; l3] ++
             match w with
             | Some ToZlibWriter => zlibWriter z (writer st)
             | _ => writer st
             end) (headerUncompressedLength st))
         ([s0; s1; s2; v; l0; l1; l2; l3] ++ writer st)
         (headerUncompressedLength st)
  end.
Proof.
  intros S. unfold main. cbn [Signature]. rewrite S.
  unfold writeSwfHeader. cbn [Signature Version FileLength].
  rewrite binaryWrite32_leUint32. reflexivity.
Qed.

(** Every way [main] reaches its end. *)
Lemma main_Done (z : Zlib) (swfFile out unc : list byte) (len : Z) :
  main z swfFile = Done out unc len ->
  exists (hdr raw r : list byte) (w : option sink) (st : state),
    swfFile = hdr ++ raw /\ length hdr = 8%nat /\
    selectStreams z (firstn 3 hdr) raw = inr (Some r, w) /\
    scanLoop (frameHeader (emit [] 8 (mkState r [] 0))) = Some (inr st) /\
    out = patchLength
            (hdr ++ match w with
                    | Some ToZlibWriter => zlibWriter z (writer st)
                    | _ => writer st
                    end) len /\
    unc = hdr ++ writer st /\
    len = headerUncompressedLength st.
Proof.
  intros M.
  destruct swfFile as [|s0 [|s1 [|s2 [|v [|l0 [|l1 [|l2 [|l3 raw]]]]]]]];
    try discriminate.
  destruct (selectStreams z [s0; s1; s2] raw) as [stop|[[r|] w]] eqn:S.
  - exfalso. unfold main in M. cbn [Signature] in M. rewrite S in M.
    unfold selectStreams in S.
    destruct (bytes_eqb [s0; s1; s2] NO_COMPRESSION); [discriminate|].
    destruct (bytes_eqb [s0; s1; s2] ZLIB_COMPRESSION).
    + destruct (zlibNewReader z raw); [discriminate|].
      injection S as <-. discriminate.
    + destruct (bytes_eqb [s0; s1; s2] LZMA_COMPRESSION); [|discriminate].
      injection S as <-. discriminate.
  - rewrite (main_streams z s0 s1 s2 v l0 l1 l2 l3 raw r w S) in M.
    destruct (scanLoop _) as [[p|st]|] eqn:L; try discriminate.
    injection M as <- <- <-.
    exists [s0; s1; s2; v; l0; l1; l2; l3], raw, r, w, st.
    repeat split; try reflexivity; assumption.
  - exfalso. unfold main in M. cbn [Signature] in M. rewrite S in M.
    discriminate.
Qed.

Lemma lengthField_patchLength (file : list byte) (v : Z) :
  (8 <= length file)%nat -> 0 <= v < 2 ^ 32 ->
  lengthField (patchLength file v) = Some v.
Proof.
  intros L V. unfold patchLength.
  destruct file as [|a0 [|a1 [|a2 [|a3 file]]]]; cbn [length] in L; try lia.
  unfold lengthField.
  cbn [firstn app skipn].
  pose proof (leUint32_binaryWrite32 v [] V) as R.
  unfold binaryWrite32 in *. cbn [app binaryRead32] in R.
  injection R as R. cbn [app]. rewrite R. reflexivity.
Qed.

(** The counter at the end of [main] is the number of bytes written on
    the uncompressed side, as a [uint32]; it is what bytes 4 to 7 of the
    scratch file hold. *)
Lemma main_length (z : Zlib) (swfFile out unc : list byte) (len : Z) :
  main z swfFile = Done out unc len ->
  len = wrap32 (Z.of_nat (length unc)) /\ lengthField out = Some len.
Proof.
  intros M. apply main_Done in M.
  destruct M as (hdr & raw & r & w & st & _ & H8 & _ & L & -> & -> & ->).
  apply scan_written in L. destruct L as [o L].
  destruct (frameHeader_written (emit [] 8 (mkState r [] 0))) as [b F].
  rewrite F, written_written in L.
  assert (C : headerUncompressedLength st
              = wrap32 (Z.of_nat (length (hdr ++ writer st)))).
  { rewrite L. unfold written, counted, emit.
    cbn [reader writer headerUncompressedLength].
    rewrite wrap32_add_l. cbn [app]. rewrite !length_app, H8.
    f_equal. lia. }
  split; [exact C|].
  apply lengthField_patchLength.
  - rewrite length_app. lia.
  - rewrite C. apply wrap32_range.
Qed.

Lemma scanLoop_signed (t : tag) (r : list byte) (st : state) :
  validTag t = true -> tagCode t = TAG_SIGNED_SWF ->
  reader st = encodeTag t ++ r ->
  scanLoop st = Some (inl SignedNotSupported).
Proof.
  intros V C R.
  rewrite scanLoop_unfold, loopBody_written, R, peekTag_encodeTag by exact V.
  rewrite C. reflexivity.
Qed.



Lemma encodeBody_app (a b : list tag) :
  encodeBody (a ++ b) = encodeBody a ++ encodeBody b.
Proof.
  induction a as [|t a IH]; [reflexivity|].
  cbn [app encodeBody]. rewrite IH, app_assoc. reflexivity.
Qed.


Lemma passThrough_forallb (body : list tag) :
  forallb harmless body = true -> forallb notAnchorNorEnd body = true ->
  forallb passThrough body = true.
Proof.
  induction body as [|t body IH]; [reflexivity|].
  cbn [forallb]. rewrite !andb_true_iff. intros [H Hs] [N Ns].
  split; [|apply IH; assumption].
  destruct (harmless_codes t H) as (T & S & E).
  unfold notAnchorNorEnd in N. apply andb_true_iff in N.
  destruct N as [F _]. unfold passThrough, hasCode in *.
  rewrite T, S, E, F. reflexivity.
Qed.


(** * The claims *)

(** ** Framing *)

(** C8. Reading a record returns its whole wire encoding.  On a source
    that starts with the encoding of a record [t] (either form, followed by
    anything) [peekTag] returns the type of [t] and the very bytes of the
    encoding, length prefix and payload, and leaves the rest of the source;
    the record is in the long form exactly when the low 6 bits of its first
    word are 63. *)
Theorem peekTag_returns_wire_encoding (t : tag) (r : list byte) :
  validTag t = true ->
  peekTag (encodeTag t ++ r) = (tagCode t, encodeTag t, r) /\
  tagLong t = (Z.land (fst (binaryRead16 (encodeTag t))) 63 =? 63) /\
  Z.of_nat (length (encodeTag t)) =
    (if tagLong t then 6 else 2) + payloadLength t.
Proof.
  intros V. split; [apply peekTag_encodeTag; exact V|].
  pose proof (validTag_code t V) as C.
  pose proof (validTag_length t V) as L.
  unfold encodeTag. destruct (tagLong t).
  - split.
    + rewrite leUint16_binaryWrite16 by lia. cbn [fst].
      destruct (tagWord_fields (tagCode t) 63) as [_ ->]; [lia|reflexivity].
    + rewrite !length_app. unfold payloadLength. cbn [length binaryWrite16
        binaryWrite32]. lia.
  - split.
    + rewrite leUint16_binaryWrite16 by lia. cbn [fst].
      destruct (tagWord_fields (tagCode t) (payloadLength t)) as [_ ->];
        [lia|].
      symmetry. apply Z.eqb_neq. lia.
    + rewrite !length_app. unfold payloadLength. cbn [length binaryWrite16].
      lia.
Qed.

Lemma peekTag_returns_wire_encoding_witness :
  peekTag (encodeTag (mkTag 9 true [xff; xff; xff]) ++ [x00; x00]) =
    (9, encodeTag (mkTag 9 true [xff; xff; xff]), [x00; x00]) /\
  true = (Z.land (fst (binaryRead16
                         (encodeTag (mkTag 9 true [xff; xff; xff])))) 63
          =? 63) /\
  Z.of_nat (length (encodeTag (mkTag 9 true [xff; xff; xff]))) = 6 + 3.
Proof.
  apply (peekTag_returns_wire_encoding (mkTag 9 true [xff; xff; xff])
           [x00; x00]).
  reflexivity.
Defined.

(** ** The bounding box *)


(** C9. For every value [n] of the 5-bit field [nBits], the number of
    bounding-box bytes after the first is [(7 + n * 4 - 3) / 8] with the
    quotient truncated, which is [4 * n] bits rounded up to whole bytes; it
    is 0 for [n = 0] and 4 for [n = 8].  (The field is [frameSize >> 3],
    which is between 0 and 31 for every byte: [nBitsOf_range].) *)
Theorem numberOfBytes_formula (n : Z) :
  0 <= n <= 31 ->
  numberOfBytes n = (7 + n * 4 - 3) / 8 /\
  numberOfBytes n = ceilDiv (5 + 4 * n - 5) 8 /\
  numberOfBytes 0 = 0 /\ numberOfBytes 8 = 4 /\
  exists b : byte, nBitsOf (byteVal b) = n.
Proof.
  intros R.
  assert (E : numberOfBytes n = (7 + n * 4 - 3) / 8).
  { unfold numberOfBytes, wrap32.
    rewrite (Z.mod_small (n * 4)) by lia.
    rewrite (Z.mod_small (7 + n * 4)) by lia.
    rewrite (Z.mod_small (7 + n * 4 - 3)) by lia. reflexivity. }
  split; [exact E|]. split.
  - rewrite E. unfold ceilDiv.
    assert (H : exists k, n = 2 * k \/ n = 2 * k + 1)
      by (exists (n / 2); pose proof (Z.div_mod n 2);
          pose proof (Z.mod_pos_bound n 2); lia).
    destruct H as [k [-> | ->]].
    + replace (7 + 2 * k * 4 - 3) with (k * 8 + 4) by lia.
      replace (- (5 + 4 * (2 * k) - 5)) with ((- k) * 8) by lia.
      rewrite Z.div_mul by lia.
      rewrite <- (Z.div_unique_pos (k * 8 + 4) 8 k 4); lia.
    + replace (7 + (2 * k + 1) * 4 - 3) with ((k + 1) * 8) by lia.
      rewrite Z.div_mul by lia.
      replace (- (5 + 4 * (2 * k + 1) - 5)) with ((- (k + 1)) * 8 + 4) by lia.
      rewrite <- (Z.div_unique_pos ((- (k + 1)) * 8 + 4) 8 (- (k + 1)) 4);
        lia.
  - split; [reflexivity|]. split; [reflexivity|].
    exists (byteOf (n * 8)). unfold nBitsOf.
    rewrite byteVal_byteOf, Z.mod_small by lia.
    change 255 with (Z.ones 8). rewrite Z.land_ones by lia.
    rewrite Z.mod_small by lia.
    rewrite Z.shiftr_div_pow2 by lia. change (2 ^ 3) with 8.
    apply Z.div_mul. lia.
Qed.

Lemma numberOfBytes_formula_witness :
  numberOfBytes 5 = (7 + 5 * 4 - 3) / 8 /\
  numberOfBytes 5 = ceilDiv (5 + 4 * 5 - 5) 8 /\
  numberOfBytes 0 = 0 /\ numberOfBytes 8 = 4 /\
  exists b : byte, nBitsOf (byteVal b) = 5.
Proof.
  apply (numberOfBytes_formula 5). lia.
Defined.

(** ** The insertion *)




(** ** A stream without a file-attributes record *)

Lemma scanLoop_copy (body : list tag) (b r0 r : list byte) (st st' : state) :
  forallb validTag body = true -> forallb notAnchorNorEnd body = true ->
  r0 = encodeBody (body ++ [END]) ++ r ->
  scanLoop (written b r0 st) = Some (inr st') ->
  st' = written (b ++ encodeBody (body ++ [END])) r st.
Proof.
  revert b r0. induction body as [|t body IH]; intros b r0 V N R H; subst r0.
  - cbn [app encodeBody] in *. rewrite app_nil_r in *.
    rewrite (scanLoop_end END r (written b (encodeTag END ++ r) st)) in H
      by reflexivity.
    injection H as <-. apply written_written.
  - cbn [forallb] in V, N. apply andb_true_iff in V, N.
    destruct V as [Vt V], N as [Nt N].
    cbn [app encodeBody] in *. rewrite <- app_assoc in H.
    unfold notAnchorNorEnd, hasCode in Nt.
    apply andb_true_iff in Nt. rewrite !negb_true_iff in Nt.
    destruct Nt as [NF NE].
    set (r1 := encodeBody (body ++ [END]) ++ r) in *.
    destruct (tagCode t =? TAG_TELEMETRY) eqn:T.
    { apply Z.eqb_eq in T.
      rewrite (scanLoop_telemetry t r1 (written b (encodeTag t ++ r1) st)
                 Vt T eq_refl) in H.
      discriminate. }
    destruct (tagCode t =? TAG_SIGNED_SWF) eqn:S.
    { apply Z.eqb_eq in S.
      rewrite (scanLoop_signed t r1 (written b (encodeTag t ++ r1) st)
                 Vt S eq_refl) in H.
      discriminate. }
    assert (P : passThrough t = true).
    { unfold passThrough, hasCode. rewrite T, S, NF, NE. reflexivity. }
    rewrite (scanLoop_passThrough t r1 (written b (encodeTag t ++ r1) st)
               Vt P eq_refl), written_written in H.
    rewrite (IH _ r1 V N eq_refl H), <- app_assoc. reflexivity.
Qed.

(** C7. A stream without a file-attributes record comes out as it went
    in.  The stream is what [reader] delivers after the 8-byte header (the
    rest of the file for "FWS", the inflated rest for "CWS"): the bounding
    box, the frame rate and count, and records followed by the end record,
    none of them a file-attributes record or of type 0.  Whenever the
    rewrite completes, the bytes written on the uncompressed side are the
    header and the stream, byte for byte, so no record was inserted, and for
    "FWS" the scratch file is the input file with bytes 4 to 7 overwritten;
    and the rewrite does complete when the stream has no telemetry and no
    signed record. *)
Theorem roundtrip_without_file_attributes (z : Zlib)
  (s0 s1 s2 v l0 l1 l2 l3 fs : byte) (raw fd : list byte)
  (r0 r1 c0 c1 : byte) (body : list tag) (w : option sink) :
  selectStreams z [s0; s1; s2] raw =
    inr (Some (fs :: fd ++ [r0; r1; c0; c1] ++ encodeBody (body ++ [END])),
         w) ->
  length fd = Z.to_nat (numberOfBytes (nBitsOf (byteVal fs))) ->
  forallb validTag body = true -> forallb notAnchorNorEnd body = true ->
  (forall out unc len,
     main z ([s0; s1; s2; v; l0; l1; l2; l3] ++ raw) = Done out unc len ->
     unc = [s0; s1; s2; v; l0; l1; l2; l3] ++
           fs :: fd ++ [r0; r1; c0; c1] ++ encodeBody (body ++ [END]) /\
     (w = Some ToOutFile ->
      out = patchLength ([s0; s1; s2; v; l0; l1; l2; l3] ++ raw) len)) /\
  (forallb harmless body = true ->
   exists out len,
     main z ([s0; s1; s2; v; l0; l1; l2; l3] ++ raw) =
     Done out
          ([s0; s1; s2; v; l0; l1; l2; l3] ++
           fs :: fd ++ [r0; r1; c0; c1] ++ encodeBody (body ++ [END]))
          len).
Proof.
  intros S L V N.
  assert (M0 : main z ([s0; s1; s2; v; l0; l1; l2; l3] ++ raw) =
               match scanLoop
                       (written (fs :: fd ++ [r0; r1; c0; c1])
                          (encodeBody (body ++ [END]))
                          (emit [] 8
                             (mkState
                                (fs :: fd ++ [r0; r1; c0; c1] ++
                                 encodeBody (body ++ [END])) [] 0)))
               with
               | None => OutOfFuel
               | Some (inl p) => Panicked p
               | Some (inr st) =>
                 Done (patchLength
                         ([s0; s1; s2; v; l0; l1; l2; l3] ++
                          match w with
                          | Some ToZlibWriter => zlibWriter z (writer st)
                          | _ => writer st
                          end) (headerUncompressedLength st))
                      ([s0; s1; s2; v; l0; l1; l2; l3] ++ writer st)
                      (headerUncompressedLength st)
               end).
  { cbn [app].
    rewrite (main_streams z s0 s1 s2 v l0 l1 l2 l3 raw _ w S).
    set (st0 := emit [] 8 _).
    rewrite (frameHeader_frame fs fd r0 r1 c0 c1
               (encodeBody (body ++ [END])) st0 L eq_refl).
    reflexivity. }
  set (st0 := emit [] 8 _) in M0.
  assert (W : forall st,
            st = written ((fs :: fd ++ [r0; r1; c0; c1]) ++
                          encodeBody (body ++ [END])) [] st0 ->
            writer st =
            fs :: fd ++ [r0; r1; c0; c1] ++ encodeBody (body ++ [END])).
  { intros st ->. cbn. rewrite <- app_assoc. reflexivity. }
  split.
  - intros out unc len M. rewrite M0 in M.
    destruct (scanLoop _) as [[p|st]|] eqn:E; try discriminate.
    injection M as <- <- <-.
    rewrite <- (app_nil_r (encodeBody (body ++ [END]))) in E at 1.
    apply (scanLoop_copy body _ _ [] _ st V N eq_refl) in E.
    rewrite (W st E). split; [reflexivity|].
    intros ->. unfold selectStreams in S.
    destruct (bytes_eqb [s0; s1; s2] NO_COMPRESSION).
    + injection S as ->. reflexivity.
    + destruct (bytes_eqb [s0; s1; s2] ZLIB_COMPRESSION).
      * destruct (zlibNewReader z raw); discriminate.
      * destruct (bytes_eqb [s0; s1; s2] LZMA_COMPRESSION); discriminate.
  - intros H. rewrite M0.
    pose proof (passThrough_forallb body H N) as P.
    rewrite encodeBody_app.
    rewrite (scanLoop_passThrough_list body _ _ (encodeBody [END]) st0 V P
               eq_refl).
    cbn [encodeBody].
    rewrite (scanLoop_end END []
               (written ((fs :: fd ++ [r0; r1; c0; c1]) ++ encodeBody body)
                        (encodeTag END ++ []) st0)
               eq_refl eq_refl eq_refl).
    rewrite written_written.
    do 2 eexists. f_equal.
    cbn [writer written]. subst st0. cbn [writer emit app].
    rewrite app_nil_r, <- !app_assoc. reflexivity.
Qed.

Lemma roundtrip_without_file_attributes_witness :
  (forall out unc len,
     main Samples.stored
          ([x46; x57; x53; x0a; x00; x00; x00; x00] ++
           Samples.frame ++
           encodeBody [Samples.setBackgroundColor; Samples.showFrame; END]) =
     Done out unc len ->
     unc = [x46; x57; x53; x0a; x00; x00; x00; x00] ++
           x00 :: [] ++ [x01; x00; x02; x00] ++
           encodeBody ([Samples.setBackgroundColor; Samples.showFrame]
                       ++ [END]) /\
     (Some ToOutFile = Some ToOutFile ->
      out = patchLength
              ([x46; x57; x53; x0a; x00; x00; x00; x00] ++
               Samples.frame ++
               encodeBody [Samples.setBackgroundColor; Samples.showFrame;
                           END]) len)) /\
  (forallb harmless [Samples.setBackgroundColor; Samples.showFrame] = true ->
   exists out len,
     main Samples.stored
          ([x46; x57; x53; x0a; x00; x00; x00; x00] ++
           Samples.frame ++
           encodeBody [Samples.setBackgroundColor; Samples.showFrame; END]) =
     Done out
          ([x46; x57; x53; x0a; x00; x00; x00; x00] ++
           x00 :: [] ++ [x01; x00; x02; x00] ++
           encodeBody ([Samples.setBackgroundColor; Samples.showFrame]
                       ++ [END]))
          len).
Proof.
  apply (roundtrip_without_file_attributes Samples.stored
           x46 x57 x53 x0a x00 x00 x00 x00 x00
           (Samples.frame ++
            encodeBody [Samples.setBackgroundColor; Samples.showFrame; END])
           [] x01 x00 x02 x00
           [Samples.setBackgroundColor; Samples.showFrame]
           (Some ToOutFile));
    vm_compute; reflexivity.
Defined.

(** ** One insertion for every file-attributes record the loop stops at *)

Lemma countCode_cons (c : Z) (t : tag) (ts : list tag) :
  countCode c (t :: ts) =
  ((if hasCode c t then 1 else 0) + countCode c ts)%nat.
Proof.
  unfold countCode. cbn [filter]. destruct (hasCode c t); reflexivity.
Qed.

Lemma hasCode_other (c c' : Z) (t : tag) :
  hasCode c t = true -> c <> c' -> hasCode c' t = false.
Proof.
  unfold hasCode. intros H N. apply Z.eqb_eq in H. apply Z.eqb_neq. lia.
Qed.

Lemma harmless_not_telemetry (t : tag) :
  harmless t = true -> hasCode TAG_TELEMETRY t = false.
Proof.
  intros H. apply harmless_codes in H. unfold hasCode. tauto.
Qed.

Lemma insertTelemetry_count_bounded (n : nat) (body : list tag) :
  (length body <= n)%nat -> forallb harmless body = true ->
  countCode TAG_TELEMETRY (insertTelemetry body) =
  countCode TAG_FILE_ATTRIBUTES body.
Proof.
  revert body. induction n as [|n IH]; intros body Ln H.
  - destruct body; [reflexivity | cbn in Ln; lia].
  - destruct body as [|t rest]; [reflexivity|].
    cbn [forallb] in H. apply andb_true_iff in H. destruct H as [Ht H].
    cbn [length] in Ln. cbn [insertTelemetry].
    pose proof (harmless_not_telemetry t Ht) as NT.
    destruct (hasCode TAG_FILE_ATTRIBUTES t) eqn:F.
    + destruct rest as [|m rest'].
      * rewrite !countCode_cons, NT, F. reflexivity.
      * cbn [forallb] in H. apply andb_true_iff in H. destruct H as [Hm H].
        cbn [length] in Ln.
        pose proof (harmless_not_telemetry m Hm) as NTm.
        destruct (hasCode TAG_META m) eqn:M.
        -- rewrite !countCode_cons, NT, NTm, F.
           rewrite (hasCode_other TAG_META TAG_FILE_ATTRIBUTES m M)
             by discriminate.
           rewrite (IH rest') by (try assumption; lia). reflexivity.
        -- rewrite (countCode_cons _ t), (countCode_cons _ TELEMETRY), NT.
           rewrite (IH (m :: rest')).
           ++ rewrite (countCode_cons _ t), F. reflexivity.
           ++ cbn [length]. lia.
           ++ cbn [forallb]. rewrite Hm, H. reflexivity.
    + rewrite !countCode_cons, NT, F. rewrite (IH rest) by (assumption || lia).
      reflexivity.
Qed.

Lemma scanLoop_insert_bounded (n : nat) (body : list tag) (b r : list byte)
  (st : state) :
  (length body <= n)%nat ->
  forallb validTag body = true -> forallb harmless body = true ->
  anchorsSeparated body = true ->
  scanLoop (written b (encodeBody (body ++ [END]) ++ r) st) =
  Some (inr (written (b ++ encodeBody (insertTelemetry body ++ [END])) r st)).
Proof.
  revert body b. induction n as [|n IH]; intros body b Ln V H A.
  - destruct body; [|cbn in Ln; lia].
    cbn [app encodeBody insertTelemetry]. rewrite app_nil_r.
    rewrite (scanLoop_end END r (written b (encodeTag END ++ r) st))
      by reflexivity.
    rewrite written_written. reflexivity.
  - destruct body as [|t rest].
    { apply (IH [] b); [cbn; lia | reflexivity..]. }
    cbn [forallb] in V, H. apply andb_true_iff in V, H.
    destruct V as [Vt V], H as [Ht H].
    cbn [length] in Ln. cbn [anchorsSeparated] in A.
    apply andb_true_iff in A. destruct A as [At A].
    destruct (harmless_codes t Ht) as (T & S & E).
    cbn [insertTelemetry].
    destruct (hasCode TAG_FILE_ATTRIBUTES t) eqn:F.
    + destruct rest as [|m rest']; [discriminate|].
      apply negb_true_iff in At.
      cbn [forallb] in V, H. apply andb_true_iff in V, H.
      destruct V as [Vm V], H as [Hm H].
      cbn [length] in Ln. cbn [anchorsSeparated] in A.
      apply andb_true_iff in A. destruct A as [_ A].
      cbn [app encodeBody]. rewrite <- !app_assoc.
      unfold hasCode in F. apply Z.eqb_eq in F.
      rewrite (scanLoop_anchor t m (encodeBody (rest' ++ [END]) ++ r)
                 (written b _ st) Vt F Vm eq_refl).
      rewrite written_written.
      rewrite (IH rest') by (assumption || lia).
      unfold hasCode at 1.
      destruct (tagCode m =? TAG_META).
      * cbn [app encodeBody]. rewrite telemetryBytes_encode, <- !app_assoc.
        reflexivity.
      * cbn [insertTelemetry]. rewrite At.
        cbn [app encodeBody]. rewrite telemetryBytes_encode, <- !app_assoc.
        reflexivity.
    + assert (P : passThrough t = true).
      { unfold passThrough, hasCode in *. rewrite T, S, F, E. reflexivity. }
      cbn [app encodeBody]. rewrite <- !app_assoc.
      rewrite (scanLoop_passThrough t (encodeBody (rest ++ [END]) ++ r)
                 (written b _ st) Vt P eq_refl).
      rewrite written_written.
      rewrite (IH rest) by (assumption || lia).
      rewrite <- app_assoc. reflexivity.
Qed.

(** C10, as the code has it.  In a stream whose records end with the end
    record, with no telemetry, signed or second end record, and where every
    file-attributes record is followed at once by a record that is not a
    file-attributes record (so the loop stops at each of them: none is taken
    as the record after another one, and none has the end record after it),
    the rewrite completes and what it writes is the stream with a telemetry
    record after every file-attributes record (behind the metadata record
    when one follows): as many telemetry records as there are
    file-attributes records. *)
Theorem insertion_after_each_anchor (z : Zlib)
  (s0 s1 s2 v l0 l1 l2 l3 fs : byte) (raw fd : list byte)
  (r0 r1 c0 c1 : byte) (body : list tag) (w : option sink) :
  selectStreams z [s0; s1; s2] raw =
    inr (Some (fs :: fd ++ [r0; r1; c0; c1] ++ encodeBody (body ++ [END])),
         w) ->
  length fd = Z.to_nat (numberOfBytes (nBitsOf (byteVal fs))) ->
  forallb validTag body = true -> forallb harmless body = true ->
  anchorsSeparated body = true ->
  (exists out len,
     main z ([s0; s1; s2; v; l0; l1; l2; l3] ++ raw) =
     Done out
          ([s0; s1; s2; v; l0; l1; l2; l3] ++
           fs :: fd ++ [r0; r1; c0; c1] ++
           encodeBody (insertTelemetry body ++ [END]))
          len) /\
  countCode TAG_TELEMETRY (insertTelemetry body) =
  countCode TAG_FILE_ATTRIBUTES body.
Proof.
  intros S L V H A. split.
  - cbn [app].
    rewrite (main_streams z s0 s1 s2 v l0 l1 l2 l3 raw _ w S).
    set (st0 := emit [] 8 _).
    rewrite (frameHeader_frame fs fd r0 r1 c0 c1
               (encodeBody (body ++ [END])) st0 L eq_refl).
    pose proof (scanLoop_insert_bounded (length body) body
                  (fs :: fd ++ [r0; r1; c0; c1]) [] st0
                  (Nat.le_refl _) V H A) as E.
    rewrite app_nil_r in E. rewrite E.
    do 2 eexists. f_equal.
    cbn. rewrite <- app_assoc. reflexivity.
  - apply (insertTelemetry_count_bounded (length body)); [lia | exact H].
Qed.

Lemma insertion_after_each_anchor_witness :
  (exists out len,
     main Samples.stored
          ([x46; x57; x53; x0a; x00; x00; x00; x00] ++
           Samples.frame ++
           encodeBody [Samples.fileAttributes; Samples.metadata;
                       Samples.showFrame; Samples.fileAttributes;
                       Samples.showFrame; END]) =
     Done out
          ([x46; x57; x53; x0a; x00; x00; x00; x00] ++
           x00 :: [] ++ [x01; x00; x02; x00] ++
           encodeBody
             (insertTelemetry [Samples.fileAttributes; Samples.metadata;
                               Samples.showFrame; Samples.fileAttributes;
                               Samples.showFrame] ++ [END]))
          len) /\
  countCode TAG_TELEMETRY
    (insertTelemetry [Samples.fileAttributes; Samples.metadata;
                      Samples.showFrame; Samples.fileAttributes;
                      Samples.showFrame]) =
  countCode TAG_FILE_ATTRIBUTES
    [Samples.fileAttributes; Samples.metadata; Samples.showFrame;
     Samples.fileAttributes; Samples.showFrame].
Proof.
  apply (insertion_after_each_anchor Samples.stored
           x46 x57 x53 x0a x00 x00 x00 x00 x00
           (Samples.frame ++
            encodeBody [Samples.fileAttributes; Samples.metadata;
                        Samples.showFrame; Samples.fileAttributes;
                        Samples.showFrame; END])
           [] x01 x00 x02 x00
           [Samples.fileAttributes; Samples.metadata; Samples.showFrame;
            Samples.fileAttributes; Samples.showFrame]
           (Some ToOutFile));
    vm_compute; reflexivity.
Defined.

(** C10 as it is stated fails where a file-attributes record follows
    another at once: of the two in this stream, neither with a telemetry or
    signed record after it, only the first gets a telemetry record; the
    second is the record read ahead and is copied as it is. *)
Lemma insertion_after_each_anchor_counterexample :
  countCode TAG_FILE_ATTRIBUTES
    [Samples.fileAttributes; Samples.fileAttributes; END] = 2%nat /\
  main Samples.stored
       (Samples.plainFile
          [Samples.fileAttributes; Samples.fileAttributes; END]) =
  Done (patchLength
          (Samples.plainFile [Samples.fileAttributes; TELEMETRY;
                              Samples.fileAttributes; END]) 31)
       (Samples.plainFile [Samples.fileAttributes; TELEMETRY;
                           Samples.fileAttributes; END])
       31 /\
  countCode TAG_TELEMETRY
    [Samples.fileAttributes; TELEMETRY; Samples.fileAttributes; END] = 1%nat /\
  Samples.plainFile [Samples.fileAttributes; TELEMETRY;
                     Samples.fileAttributes; END] <>
  Samples.plainFile
    (insertTelemetry [Samples.fileAttributes; Samples.fileAttributes]
     ++ [END]).
Proof.
  repeat split; try (vm_compute; reflexivity).
  vm_compute. discriminate.
Qed.

(** ** The length field *)

(** C5, as the code has it.  When the rewrite completes, bytes 4 to 7 of
    the scratch file hold, little-endian, the value of the running counter,
    and that value is the number of bytes written on the uncompressed side
    (the 8-byte header, the bounding box, frame rate and count, every record
    copied and every telemetry record put in) modulo [2 ^ 32], the counter
    being a [uint32]: the exact number whenever fewer than [2 ^ 32] bytes
    are written. *)
Theorem patched_length_counts_written_bytes (z : Zlib)
  (swfFile out unc : list byte) (len : Z) :
  main z swfFile = Done out unc len ->
  lengthField out = Some len /\
  len = Z.of_nat (length unc) mod 2 ^ 32 /\
  (Z.of_nat (length unc) < 2 ^ 32 -> len = Z.of_nat (length unc)).
Proof.
  intros M. destruct (main_length z swfFile out unc len M) as [C F].
  split; [exact F|]. split; [exact C|].
  intros Lt. rewrite C. unfold wrap32. apply Z.mod_small. lia.
Qed.

Lemma patched_length_counts_written_bytes_witness :
  lengthField
    (patchLength
       (Samples.plainFile [Samples.fileAttributes; TELEMETRY;
                           Samples.showFrame; END]) 27) = Some 27 /\
  27 = Z.of_nat (length (Samples.plainFile
                           [Samples.fileAttributes; TELEMETRY;
                            Samples.showFrame; END])) mod 2 ^ 32 /\
  (Z.of_nat (length (Samples.plainFile
                       [Samples.fileAttributes; TELEMETRY;
                        Samples.showFrame; END])) < 2 ^ 32 ->
   27 = Z.of_nat (length (Samples.plainFile
                            [Samples.fileAttributes; TELEMETRY;
                             Samples.showFrame; END]))).
Proof.
  apply (patched_length_counts_written_bytes Samples.stored
           (Samples.plainFile
              [Samples.fileAttributes; Samples.showFrame; END])).
  vm_compute. reflexivity.
Defined.

(** [main] on a file with one record in the long form that declares, and
    has, [2 ^ 32 - 1] bytes of payload. *)
Lemma main_longRecordFile (z : Zlib) (p : list byte) :
  Z.of_nat (length p) = 4294967295 ->
  main z (Samples.longRecordFile p) =
  Done (patchLength (Samples.longRecordFile p) 20)
       (Samples.longRecordFile p) 20.
Proof.
  intros L. unfold Samples.longRecordFile.
  assert (V : validTag (mkTag 1 true p) = true).
  { unfold validTag, payloadLength. cbn [tagCode tagLong tagPayload].
    rewrite L. reflexivity. }
  set (body := encodeTag (mkTag 1 true p) ++ encodeTag END).
  set (file := Samples.plainHeader ++ Samples.frame ++ body).
  change (main z file)
    with (main z (x46 :: x57 :: x53 :: x0a :: x00 :: x00 :: x00 :: x00
                  :: Samples.frame ++ body)).
  rewrite (main_streams z x46 x57 x53 x0a x00 x00 x00 x00
             (Samples.frame ++ body) (Samples.frame ++ body)
             (Some ToOutFile) eq_refl).
  set (st0 := emit [] 8 _).
  rewrite (frameHeader_frame x00 [] x01 x00 x02 x00 body st0
             eq_refl eq_refl).
  change (x00 :: [] ++ [x01; x00; x02; x00]) with Samples.frame.
  unfold body at 1.
  rewrite (scanLoop_passThrough (mkTag 1 true p) (encodeTag END)
             (written Samples.frame
                      (encodeTag (mkTag 1 true p) ++ encodeTag END) st0)
             V eq_refl eq_refl).
  rewrite written_written.
  rewrite (scanLoop_end END []
             (written (Samples.frame ++ encodeTag (mkTag 1 true p))
                      (encodeTag END) st0)
             eq_refl eq_refl eq_refl).
  rewrite written_written.
  set (o := (Samples.frame ++ encodeTag (mkTag 1 true p)) ++ encodeTag END).
  assert (C : headerUncompressedLength (written o [] st0) = 20).
  { unfold written, counted, o. cbn [headerUncompressedLength].
    rewrite !length_app. unfold encodeTag at 1. cbn [tagLong tagPayload].
    rewrite !length_app, !Nat2Z.inj_add, L.
    subst st0. reflexivity. }
  assert (W : [x46; x57; x53; x0a; x00; x00; x00; x00]
              ++ writer (written o [] st0) = file).
  { unfold o, file, body. cbn [writer written]. subst st0.
    cbn [writer emit]. rewrite <- !app_assoc. reflexivity. }
  rewrite C, W. reflexivity.
Qed.

Lemma longRecordFile_length (p : list byte) :
  Z.of_nat (length (Samples.longRecordFile p)) = Z.of_nat (length p) + 21.
Proof.
  unfold Samples.longRecordFile. rewrite !length_app.
  unfold encodeTag at 1. cbn [tagLong tagPayload].
  rewrite !length_app, !Nat2Z.inj_add.
  change (Z.of_nat (length Samples.plainHeader)) with 8.
  change (Z.of_nat (length Samples.frame)) with 5.
  change (Z.of_nat (length (encodeTag END))) with 2.
  cbn [length binaryWrite16 binaryWrite32]. lia.
Qed.

Lemma hugePayload_length : Z.of_nat (length Samples.hugePayload) = 4294967295.
Proof.
  unfold Samples.hugePayload. rewrite repeat_length.
  apply Z2Nat.id. discriminate.
Qed.

(** C5 as it is stated fails on a file that carries a record with the
    longest payload the long form can declare: the rewrite completes and
    copies the file, [2 ^ 32 + 20] bytes, and the length field it patches
    is 20. *)
Lemma patched_length_counterexample :
  main Samples.stored Samples.hugeFile =
    Done (patchLength Samples.hugeFile 20) Samples.hugeFile 20 /\
  lengthField (patchLength Samples.hugeFile 20) = Some 20 /\
  Z.of_nat (length Samples.hugeFile) = 4294967316.
Proof.
  pose proof (main_longRecordFile Samples.stored Samples.hugePayload
                hugePayload_length) as M.
  split; [exact M|]. split.
  - apply (main_length Samples.stored _ _ _ _ M).
  - unfold Samples.hugeFile.
    rewrite longRecordFile_length, hugePayload_length. reflexivity.
Qed.

(** ** A source that ends early *)

(** C4, as the code has it.  [peekTag] has no failure to return; on a
    source that ends early it leaves nothing to read and returns
    - type 0 and the bytes [00 00], the encoding of the end record, when
      fewer than the 2 bytes of the tag word are left;
    - in the short form, the tag word and the payload there is, filled up
      with zero bytes to the declared length;
    - in the long form with fewer than the 4 bytes of the length left, the
      tag word and a zero length, with no payload;
    - in the long form, the tag word, the length and the payload there is,
      filled up with zero bytes to the declared length. *)
Theorem peekTag_short_read (r : list byte) :
  ((length r < 2)%nat -> peekTag r = (TAG_END, [x00; x00], [])) /\
  (forall b0 b1 p,
     r = b0 :: b1 :: p ->
     Z.land (leUint16 b0 b1) 63 < 63 ->
     Z.of_nat (length p) < Z.land (leUint16 b0 b1) 63 ->
     peekTag r =
     (Z.shiftr (leUint16 b0 b1) 6,
      [b0; b1] ++ p ++
      repeat x00 (Z.to_nat (Z.land (leUint16 b0 b1) 63) - length p),
      [])) /\
  (forall b0 b1 q,
     r = b0 :: b1 :: q ->
     Z.land (leUint16 b0 b1) 63 = 63 -> (length q < 4)%nat ->
     peekTag r =
     (Z.shiftr (leUint16 b0 b1) 6, [b0; b1; x00; x00; x00; x00], [])) /\
  (forall b0 b1 l0 l1 l2 l3 p,
     r = b0 :: b1 :: l0 :: l1 :: l2 :: l3 :: p ->
     Z.land (leUint16 b0 b1) 63 = 63 ->
     Z.of_nat (length p) < leUint32 l0 l1 l2 l3 ->
     peekTag r =
     (Z.shiftr (leUint16 b0 b1) 6,
      [b0; b1; l0; l1; l2; l3] ++ p ++
      repeat x00 (Z.to_nat (leUint32 l0 l1 l2 l3) - length p),
      [])).
Proof.
  repeat split.
  - intros H. destruct r as [|b [|b' r]]; cbn [length] in H; try lia;
      reflexivity.
  - intros b0 b1 p -> Lo Sh. unfold peekTag. cbn [binaryRead16].
    replace (LONG_TAG_LENGTH <=? Z.land (leUint16 b0 b1) 63) with false
      by (symmetry; apply Z.leb_gt; exact Lo).
    unfold ioReadFull.
    rewrite firstn_all2, skipn_all2 by lia.
    rewrite binaryWrite16_leUint16. reflexivity.
  - intros b0 b1 q -> Lo Sh. unfold peekTag. cbn [binaryRead16].
    rewrite Lo. cbn [Z.leb Z.compare LONG_TAG_LENGTH Pos.compare
                     Pos.compare_cont].
    rewrite binaryWrite16_leUint16.
    destruct q as [|q0 [|q1 [|q2 [|q3 q]]]]; cbn [length] in Sh; try lia;
      reflexivity.
  - intros b0 b1 l0 l1 l2 l3 p -> Lo Sh. unfold peekTag.
    cbn [binaryRead16 binaryRead32].
    rewrite Lo. cbn [Z.leb Z.compare LONG_TAG_LENGTH Pos.compare
                     Pos.compare_cont].
    unfold ioReadFull.
    rewrite firstn_all2, skipn_all2 by lia.
    rewrite binaryWrite16_leUint16, binaryWrite32_leUint32. reflexivity.
Qed.

Lemma peekTag_short_read_witness :
  peekTag [x7f] = (TAG_END, [x00; x00], []) /\
  peekTag [x44; x11; x08] =
    (Z.shiftr (leUint16 x44 x11) 6,
     [x44; x11] ++ [x08] ++
     repeat x00 (Z.to_nat (Z.land (leUint16 x44 x11) 63) - length [x08]),
     []) /\
  peekTag [x7f; x02; x01] =
    (Z.shiftr (leUint16 x7f x02) 6, [x7f; x02; x00; x00; x00; x00], []) /\
  peekTag [x7f; x02; x03; x00; x00; x00; xff] =
    (Z.shiftr (leUint16 x7f x02) 6,
     [x7f; x02; x03; x00; x00; x00] ++ [xff] ++
     repeat x00 (Z.to_nat (leUint32 x03 x00 x00 x00) - length [xff]),
     []).
Proof.
  split; [|split; [|split]].
  - apply (proj1 (peekTag_short_read [x7f])). cbn. lia.
  - apply (proj1 (proj2 (peekTag_short_read [x44; x11; x08]))
             x44 x11 [x08] eq_refl); vm_compute; reflexivity.
  - apply (proj1 (proj2 (proj2 (peekTag_short_read [x7f; x02; x01])))
             x7f x02 [x01] eq_refl); [reflexivity | cbn; lia].
  - apply (proj2 (proj2 (proj2 (peekTag_short_read
                                  [x7f; x02; x03; x00; x00; x00; xff])))
             x7f x02 x03 x00 x00 x00 [xff] eq_refl); vm_compute; reflexivity.
Defined.

(** C4 as it is stated fails: reading at the end of the source gives what
    reading an end record gives, reading a record cut inside its payload
    gives the record with zeros for what is missing, and [main] completes on
    the file that is cut there. *)
Lemma truncated_source_counterexample :
  peekTag [] = (TAG_END, encodeTag END, []) /\
  fst (peekTag []) = fst (peekTag (encodeTag END)) /\
  peekTag [x44; x11; x08] =
    (TAG_FILE_ATTRIBUTES, encodeTag Samples.fileAttributes, []) /\
  main Samples.stored Samples.cutFile =
    Done (patchLength
            (Samples.plainFile [Samples.fileAttributes; TELEMETRY; END; END])
            27)
         (Samples.plainFile [Samples.fileAttributes; TELEMETRY; END; END])
         27.
Proof.
  repeat split; vm_compute; reflexivity.
Qed.

(** ** Where the record read ahead is not looked at *)

(** C1, at the failing input.  The file the program makes from a stream
    with a file-attributes record and no metadata record has the telemetry
    record right after the file-attributes record; given that file again,
    the program does not panic: it copies the telemetry record as the record
    read ahead and puts a second one before it. *)
Theorem telemetry_read_ahead_not_detected (z : Zlib) :
  main z (Samples.plainFile
            [Samples.fileAttributes; Samples.showFrame; END]) =
    Done (patchLength
            (Samples.plainFile [Samples.fileAttributes; TELEMETRY;
                                Samples.showFrame; END]) 27)
         (Samples.plainFile [Samples.fileAttributes; TELEMETRY;
                             Samples.showFrame; END])
         27 /\
  main z (patchLength
            (Samples.plainFile [Samples.fileAttributes; TELEMETRY;
                                Samples.showFrame; END]) 27) =
    Done (patchLength
            (Samples.plainFile [Samples.fileAttributes; TELEMETRY; TELEMETRY;
                                Samples.showFrame; END]) 31)
         (patchLength
            (Samples.plainFile [Samples.fileAttributes; TELEMETRY; TELEMETRY;
                                Samples.showFrame; END]) 27)
         31.
Proof.
  split; vm_compute; reflexivity.
Qed.

(** C3, at the failing input.  An end record that is the record read
    ahead after a file-attributes record does not stop the loop: at the end
    of the source a second end record is written, and records that follow
    the first are read and copied. *)
Theorem end_read_ahead_does_not_stop (z : Zlib) :
  main z (Samples.plainFile [Samples.fileAttributes; END]) =
    Done (patchLength
            (Samples.plainFile [Samples.fileAttributes; TELEMETRY; END; END])
            27)
         (Samples.plainFile [Samples.fileAttributes; TELEMETRY; END; END])
         27 /\
  main z (Samples.plainFile
            [Samples.fileAttributes; END; Samples.setBackgroundColor]) =
    Done (patchLength
            (Samples.plainFile [Samples.fileAttributes; TELEMETRY; END;
                                Samples.setBackgroundColor; END]) 32)
         (Samples.plainFile [Samples.fileAttributes; TELEMETRY; END;
                             Samples.setBackgroundColor; END])
         32.
Proof.
  split; vm_compute; reflexivity.
Qed.

(** ** A signature that is not known *)

Lemma selectStreams_unknown (z : Zlib) (sig rest : list byte) :
  bytes_eqb sig NO_COMPRESSION = false ->
  bytes_eqb sig ZLIB_COMPRESSION = false ->
  bytes_eqb sig LZMA_COMPRESSION = false ->
  selectStreams z sig rest = inr (None, None).
Proof.
  intros N Z L. unfold selectStreams. rewrite N, Z, L. reflexivity.
Qed.

(** C6, at the failing input.  With a signature that is none of "FWS",
    "CWS", "ZWS" no branch assigns [reader]; the program writes the header
    to the scratch file and stops in the run-time panic of the first read on
    the nil reader, not in an error of its own. *)
Theorem unknown_signature_nil_reader (z : Zlib) :
  selectStreams z [x41; x42; x43]
    (Samples.frame ++ encodeBody [END]) = inr (None, None) /\
  main z Samples.unknownSignatureFile = NilDereference.
Proof.
  split; reflexivity.
Qed.

(** * Further properties of the program *)

(** ** The loop ends within one turn for every two bytes of input *)

Lemma loopBody_ext2 (k1 k2 : state -> option (panic + state)) (st : state) :
  (forall st', (length (reader st') + 2 <= length (reader st))%nat ->
               k1 st' = k2 st') ->
  loopBody k1 st = loopBody k2 st.
Proof.
  intros K. unfold loopBody.
  pose proof (peekTag_consumes (reader st)) as P.
  destruct (peekTag (reader st)) as [[ty d] r1]. destruct P as [_ P].
  destruct (ty =? TAG_TELEMETRY); [reflexivity|].
  destruct (ty =? TAG_SIGNED_SWF); [reflexivity|].
  destruct (ty =? TAG_FILE_ATTRIBUTES) eqn:FA.
  - apply Z.eqb_eq in FA. unfold TAG_FILE_ATTRIBUTES in FA.
    cbn [reader copyTag setReader].
    pose proof (peekTag_consumes r1) as P2.
    destruct (peekTag r1) as [[ty2 d2] r2]. destruct P2 as [P2 _].
    apply K. destruct (ty2 =? TAG_META); cbn; lia.
  - destruct (ty =? TAG_END) eqn:E; [reflexivity|].
    apply Z.eqb_neq in E. unfold TAG_END in E. apply K. cbn. lia.
Qed.

Lemma scan_enough (f : nat) (st : state) :
  (length (reader st) < 2 * f)%nat -> scan f st = scanLoop st.
Proof.
  revert st. induction f as [|f IH]; intros st H; [lia|].
  rewrite scanLoop_unfold. cbn [scan].
  apply loopBody_ext2. intros st' L. apply IH. lia.
Qed.

(** X1. The [for] loop never hangs: on any input, well formed or not, it
    has ended, in a panic or through [break], after at most one turn more
    than half the number of bytes left to read, since a turn that goes on
    has consumed at least the two bytes of a tag word. *)
Theorem scan_ends_within_half_the_input (st : state) :
  scan (S (length (reader st) / 2)) st = scanLoop st /\
  scanLoop st <> None.
Proof.
  split; [|apply scanLoop_total].
  apply scan_enough.
  pose proof (Nat.div_mod_eq (length (reader st)) 2) as D.
  pose proof (Nat.mod_upper_bound (length (reader st)) 2). lia.
Qed.

(** ** The bounding box *)


(** What the steps before the loop write, whatever the input: the first
    byte, the bytes of the bounding box it announces, and four bytes. *)
Lemma frameHeader_size (st : state) :
  exists bytes,
    frameHeader st = written bytes (reader (frameHeader st)) st /\
    Z.of_nat (length bytes) =
      5 + numberOfBytes (nBitsOf (fst (binaryRead8 (reader st)))) /\
    (length (reader (frameHeader st)) <= length (reader st))%nat.
Proof.
  unfold frameHeader.
  assert (R8 : (length (snd (binaryRead8 (reader st)))
                <= length (reader st))%nat)
    by (destruct (reader st); cbn; lia).
  destruct (binaryRead8 (reader st)) as [frameSize r1].
  cbn [reader setReader fst snd] in *.
  pose proof (ioReadFull_length
                (Z.to_nat (numberOfBytes (nBitsOf frameSize))) r1) as L.
  pose proof (ioReadFull_rest
                (Z.to_nat (numberOfBytes (nBitsOf frameSize))) r1) as RF.
  destruct (ioReadFull (Z.to_nat (numberOfBytes (nBitsOf frameSize))) r1)
    as [frameData r2].
  cbn [fst snd] in L, RF. cbn [reader setReader emit].
  assert (R16 : forall r, (length (snd (binaryRead16 r)) <= length r)%nat)
    by (intros [|a [|a' r]]; cbn; lia).
  pose proof (R16 r2) as Ra.
  destruct (binaryRead16 r2) as [frameRate r3]. cbn [snd] in Ra.
  pose proof (R16 r3) as Rb.
  destruct (binaryRead16 r3) as [frameCount r4]. cbn [snd] in Rb.
  exists (binaryWrite8 frameSize ++ frameData ++ binaryWrite16 frameRate
          ++ binaryWrite16 frameCount).
  pose proof (numberOfBytes_nonneg (nBitsOf frameSize)) as NN.
  split; [|split].
  - unfold written, emit, counted.
    cbn [reader writer headerUncompressedLength setReader].
    rewrite !app_nil_r, <- !app_assoc.
    repeat (rewrite wrap32_add_l; rewrite <- ?Z.add_assoc).
    f_equal. f_equal.
    rewrite !length_app, L. cbn [length binaryWrite8 binaryWrite16]. lia.
  - rewrite !length_app, L. cbn [length binaryWrite8 binaryWrite16]. lia.
  - cbn [reader emit setReader]. lia.
Qed.

(** A 16-bit field read and written again: its two bytes when the
    reader has both, two zero bytes and an emptied reader when it has not. *)
Lemma binaryRead16_rewritten (r : list byte) :
  binaryWrite16 (fst (binaryRead16 r)) =
    match r with a :: b :: _ => [a; b] | _ => [x00; x00] end /\
  snd (binaryRead16 r) = match r with _ :: _ :: r' => r' | _ => [] end.
Proof.
  destruct r as [|a [|b r]]; cbn [binaryRead16 fst snd];
    try (split; reflexivity).
  rewrite binaryWrite16_leUint16. split; reflexivity.
Qed.

(** X3. What the steps of [main] between the header and the loop write,
    whatever the input holds: the first byte (a zero byte when there is
    none); the bytes of the bounding box that this byte announces, as far as
    the input has them, and zero bytes for the ones it lacks; then the frame
    rate and the frame count, each as its two bytes when the reader still has
    both, and as two zero bytes otherwise (a single byte left is consumed and
    not copied).  That is 5 bytes more than the box, and the counter is
    raised by that number. *)
Theorem frameHeader_writes_the_announced_size (st : state) :
  let first := match reader st with b :: _ => b | [] => x00 end in
  let r1 := tl (reader st) in
  let n := Z.to_nat (numberOfBytes (nBitsOf (byteVal first))) in
  let box := firstn n r1 ++ repeat x00 (n - length r1) in
  let r2 := skipn n r1 in
  let field (r : list byte) :=
    match r with a :: b :: _ => [a; b] | _ => [x00; x00] end in
  let after (r : list byte) :=
    match r with _ :: _ :: r' => r' | _ => [] end in
  writer (frameHeader st) =
    writer st ++ first :: box ++ field r2 ++ field (after r2) /\
  reader (frameHeader st) = after (after r2) /\
  headerUncompressedLength (frameHeader st) =
    wrap32 (headerUncompressedLength st
            + 5 + numberOfBytes (nBitsOf (byteVal first))) /\
  Z.of_nat (length (first :: box ++ field r2 ++ field (after r2))) =
    5 + numberOfBytes (nBitsOf (byteVal first)).
Proof.
  intros first r1 n box r2 field after.
  assert (R8 : binaryRead8 (reader st) = (byteVal first, r1)).
  { subst first r1. destruct (reader st); reflexivity. }
  pose proof (numberOfBytes_nonneg (nBitsOf (byteVal first))) as NN.
  assert (LB : length box = n).
  { subst box. rewrite length_app, length_firstn, repeat_length. lia. }
  assert (LF : forall r, length (field r) = 2%nat).
  { intros [|a [|b r]]; reflexivity. }
  unfold frameHeader. rewrite R8. cbn [reader setReader].
  fold n. unfold ioReadFull. fold box. fold r2.
  cbn [reader setReader emit].
  destruct (binaryRead16_rewritten r2) as [W2 A2].
  destruct (binaryRead16 r2) as [frameRate r3]. cbn [fst snd] in W2, A2.
  destruct (binaryRead16_rewritten r3) as [W3 A3].
  destruct (binaryRead16 r3) as [frameCount r4]. cbn [fst snd] in W3, A3.
  cbn [reader writer headerUncompressedLength setReader emit].
  rewrite W2, W3, A3, A2, binaryWrite8_read.
  fold (field r2). fold (after r2). fold (field (after r2)).
  fold (after (after r2)).
  split; [|split; [reflexivity|split]].
  - rewrite !app_nil_r, <- !app_assoc. reflexivity.
  - repeat (rewrite wrap32_add_l; rewrite <- ?Z.add_assoc).
    f_equal. lia.
  - cbn [length]. rewrite !length_app, LB, !LF. subst n. lia.
Qed.

(** X4. On an input that has them, the bounding box, the frame rate and
    the frame count go to the output byte for byte: after these steps the
    reader stands at the first record, and the counter has gone up by their
    number. *)
Theorem frameHeader_copies_the_frame (fs : byte) (fd : list byte)
  (r0 r1 c0 c1 : byte) (body : list byte) (st : state) :
  length fd = Z.to_nat (numberOfBytes (nBitsOf (byteVal fs))) ->
  reader st = fs :: fd ++ [r0; r1; c0; c1] ++ body ->
  reader (frameHeader st) = body /\
  writer (frameHeader st) = writer st ++ fs :: fd ++ [r0; r1; c0; c1] /\
  headerUncompressedLength (frameHeader st) =
    wrap32 (headerUncompressedLength st
            + 5 + numberOfBytes (nBitsOf (byteVal fs))).
Proof.
  intros L R. rewrite (frameHeader_frame fs fd r0 r1 c0 c1 body st L R).
  cbn [reader writer headerUncompressedLength written]. unfold counted.
  repeat split. f_equal. cbn [length]. rewrite length_app, L. cbn [length].
  pose proof (numberOfBytes_nonneg (nBitsOf (byteVal fs))). lia.
Qed.

Lemma frameHeader_copies_the_frame_witness :
  reader (frameHeader (mkState (Samples.frame ++ encodeBody [END]) [] 8)) =
    encodeBody [END] /\
  writer (frameHeader (mkState (Samples.frame ++ encodeBody [END]) [] 8)) =
    [] ++ x00 :: [] ++ [x01; x00; x02; x00] /\
  headerUncompressedLength
    (frameHeader (mkState (Samples.frame ++ encodeBody [END]) [] 8)) =
    wrap32 (8 + 5 + numberOfBytes (nBitsOf (byteVal x00))).
Proof.
  apply (frameHeader_copies_the_frame x00 [] x01 x00 x02 x00
           (encodeBody [END])
           (mkState (Samples.frame ++ encodeBody [END]) [] 8));
    reflexivity.
Defined.

(** ** [peekTag] on any source *)

Lemma leUint16_type_range (b0 b1 : byte) :
  0 <= Z.shiftr (leUint16 b0 b1) 6 < 1024.
Proof.
  pose proof (leUint16_range b0 b1) as R.
  rewrite Z.shiftr_div_pow2 by lia. change (2 ^ 6) with 64.
  split; [apply Z.div_pos; lia | apply Z.div_lt_upper_bound; lia].
Qed.

(** X5. Whatever the source holds, [peekTag] returns a type of 10 bits
    and at least the two bytes of a tag word; it leaves a tail of the source,
    and it never returns fewer bytes than it has taken from the source (it
    returns more when the source ends early). *)
Theorem peekTag_any_source (r : list byte) :
  let '(ty, d, r') := peekTag r in
  0 <= ty < 1024 /\
  (2 <= length d)%nat /\
  (exists k, r' = skipn k r) /\
  (length r - length r' <= length d)%nat.
Proof.
  unfold peekTag.
  destruct r as [|b0 [|b1 r]]; cbn [binaryRead16].
  - cbn. repeat split; try lia. exists 0%nat. reflexivity.
  - cbn. repeat split; try lia. exists 1%nat. reflexivity.
  - pose proof (leUint16_type_range b0 b1) as T.
    destruct (LONG_TAG_LENGTH <=? Z.land (leUint16 b0 b1) 63).
    + destruct r as [|l0 [|l1 [|l2 [|l3 r]]]]; cbn [binaryRead32].
      1-4: (split; [exact T|]; split; [cbn; lia|];
            split; [exists 5%nat; reflexivity | cbn; lia]).
      unfold ioReadFull.
      repeat split; try lia.
      * rewrite !length_app. cbn [length binaryWrite16]. lia.
      * exists (6 + Z.to_nat (leUint32 l0 l1 l2 l3))%nat. reflexivity.
      * rewrite !length_app, length_firstn, repeat_length, length_skipn.
        cbn [length binaryWrite16 binaryWrite32]. lia.
    + unfold ioReadFull.
      repeat split; try lia.
      * rewrite !length_app. cbn [length binaryWrite16]. lia.
      * exists (2 + Z.to_nat (Z.land (leUint16 b0 b1) 63))%nat. reflexivity.
      * rewrite !length_app, length_firstn, repeat_length, length_skipn.
        cbn [length binaryWrite16]. lia.
Qed.

(** The bytes [peekTag] returns start with the tag word the type was
    read from. *)
Lemma peekTag_head (r : list byte) :
  let '(ty, d, _) := peekTag r in
  exists b0 b1 pay, d = b0 :: b1 :: pay /\ ty = Z.shiftr (leUint16 b0 b1) 6.
Proof.
  unfold peekTag.
  destruct r as [|b0 [|b1 r]]; cbn [binaryRead16].
  - exists x00, x00, []. split; reflexivity.
  - exists x00, x00, []. split; reflexivity.
  - rewrite binaryWrite16_leUint16.
    destruct (LONG_TAG_LENGTH <=? Z.land (leUint16 b0 b1) 63).
    + destruct (binaryRead32 r) as [longLength r2].
      destruct (ioReadFull (Z.to_nat longLength) r2) as [d r3].
      eexists b0, b1, _. split; reflexivity.
    + destruct (ioReadFull (Z.to_nat (Z.land (leUint16 b0 b1) 63)) r)
        as [d r3].
      eexists b0, b1, _. split; reflexivity.
Qed.

(** ** [writeTelemetryTag] *)

(** X6. [writeTelemetryTag] puts four bytes on the writer, counts four
    and reads nothing; the four bytes are a whole record in the short form,
    of type [TAG_TELEMETRY] with two zero bytes of payload, so that
    [peekTag] reads them back as one record of that type, whatever
    follows. *)
Theorem writeTelemetryTag_record (st : state) (r : list byte) :
  reader (writeTelemetryTag st) = reader st /\
  writer (writeTelemetryTag st) = writer st ++ telemetryBytes /\
  headerUncompressedLength (writeTelemetryTag st) =
    wrap32 (headerUncompressedLength st + 4) /\
  telemetryBytes = encodeTag (mkTag TAG_TELEMETRY false [x00; x00]) /\
  peekTag (telemetryBytes ++ r) = (TAG_TELEMETRY, telemetryBytes, r).
Proof.
  rewrite writeTelemetryTag_written.
  split; [reflexivity|]. split; [reflexivity|]. split; [reflexivity|].
  split; [reflexivity|].
  rewrite telemetryBytes_encode.
  apply (peekTag_encodeTag TELEMETRY r). reflexivity.
Qed.

(** ** The output of a loop that completes *)

Lemma peekTag_leaves_tail (r : list byte) :
  exists k, snd (peekTag r) = skipn k r.
Proof.
  unfold peekTag.
  destruct r as [|b0 [|b1 r]]; cbn [binaryRead16].
  - exists 0%nat. reflexivity.
  - exists 1%nat. reflexivity.
  - destruct (LONG_TAG_LENGTH <=? Z.land (leUint16 b0 b1) 63).
    + destruct r as [|l0 [|l1 [|l2 [|l3 r]]]]; cbn [binaryRead32].
      1-4: (exists 5%nat; reflexivity).
      exists (6 + Z.to_nat (leUint32 l0 l1 l2 l3))%nat. reflexivity.
    + exists (2 + Z.to_nat (Z.land (leUint16 b0 b1) 63))%nat. reflexivity.
Qed.

(** The turn in which a loop that completes leaves: it starts in a state
    [st1] that the loop has come to, reads a record of type 0 there, copies
    it and reads no more. *)
Lemma scan_last_turn (f : nat) (st st' : state) :
  scan f st = Some (inr st') ->
  exists st1 d k pre,
    reader st1 = skipn k (reader st) /\
    writer st1 = writer st ++ pre /\
    peekTag (reader st1) = (TAG_END, d, reader st') /\
    st' = written d (reader st') st1.
Proof.
  revert st. induction f as [|f IH]; intros st H; [discriminate|].
  cbn [scan] in H. rewrite loopBody_written in H.
  destruct (peekTag_leaves_tail (reader st)) as [k1 K1].
  destruct (peekTag (reader st)) as [[ty d] r1] eqn:P. cbn [snd] in K1.
  destruct (ty =? TAG_TELEMETRY); [discriminate|].
  destruct (ty =? TAG_SIGNED_SWF); [discriminate|].
  destruct (ty =? TAG_FILE_ATTRIBUTES).
  - destruct (peekTag_leaves_tail r1) as [k2 K2].
    destruct (peekTag r1) as [[ty2 d2] r2]. cbn [snd] in K2.
    apply IH in H. destruct H as (st1 & e & k & pre & R & W & Q & E).
    cbn [reader writer written] in R, W.
    match type of W with
    | _ = (_ ++ ?x) ++ _ => exists st1, e, (k + (k2 + k1))%nat, (x ++ pre)
    end.
    split; [|split; [|split; assumption]].
    + rewrite R, K2, K1, !skipn_skipn. f_equal. lia.
    + rewrite W, <- !app_assoc. reflexivity.
  - destruct (ty =? TAG_END) eqn:E.
    + injection H as <-. apply Z.eqb_eq in E. subst ty.
      exists st, d, 0%nat, []. cbn [reader written skipn].
      rewrite app_nil_r. repeat split. exact P.
    + apply IH in H. destruct H as (st1 & e & k & pre & R & W & Q & E').
      cbn [reader writer written] in R, W.
      match type of W with
      | _ = (_ ++ ?x) ++ _ => exists st1, e, (k + k1)%nat, (x ++ pre)
      end.
      split; [|split; [|split; assumption]].
      * rewrite R, K1, skipn_skipn. f_equal.
      * rewrite W, <- !app_assoc. reflexivity.
Qed.

(** X7. A loop that completes has written an end record last, on any
    input.  It leaves in a turn that starts in a state [st1] the loop has
    come to (some tail of the input left to read, something added to the
    writer): there [peekTag] returns a record [d] of type 0, and the final
    state is [st1] with exactly [d] added to the writer, its length added to
    the counter, and the reader as [peekTag] left it.  So the last bytes of
    the output are the whole record read in that turn, starting with its tag
    word of type 0, and nothing is written or read after it.  On an input
    that ends without an end record, [d] is the zero tag word read at the
    end of the source. *)
Theorem completed_loop_writes_end_record_last (st st' : state) :
  scanLoop st = Some (inr st') ->
  exists st1 d k pre,
    reader st1 = skipn k (reader st) /\
    writer st1 = writer st ++ pre /\
    scanLoop st1 = scanLoop st /\
    peekTag (reader st1) = (TAG_END, d, reader st') /\
    writer st' = writer st1 ++ d /\
    headerUncompressedLength st' =
      wrap32 (headerUncompressedLength st1 + Z.of_nat (length d)) /\
    exists b0 b1 pay,
      d = b0 :: b1 :: pay /\ Z.shiftr (leUint16 b0 b1) 6 = TAG_END.
Proof.
  intros H. pose proof H as H0. unfold scanLoop in H0.
  apply scan_last_turn in H0.
  destruct H0 as (st1 & d & k & pre & R & W & Q & E).
  exists st1, d, k, pre.
  split; [exact R|]. split; [exact W|]. split; [|split; [exact Q|]].
  - rewrite H, scanLoop_unfold, loopBody_written, Q.
    cbn [Z.eqb TAG_END TAG_TELEMETRY TAG_SIGNED_SWF TAG_FILE_ATTRIBUTES].
    rewrite <- E. reflexivity.
  - split; [rewrite E at 1; reflexivity|].
    split; [rewrite E at 1; reflexivity|].
    pose proof (peekTag_head (reader st1)) as Hd. rewrite Q in Hd.
    destruct Hd as (b0 & b1 & pay & -> & T).
    exists b0, b1, pay. split; [reflexivity | symmetry; exact T].
Qed.

Lemma completed_loop_writes_end_record_last_witness :
  exists st1 d k pre,
    reader st1 = skipn k (encodeBody [Samples.showFrame; END]) /\
    writer st1 = Samples.frame ++ pre /\
    scanLoop st1 =
      scanLoop (mkState (encodeBody [Samples.showFrame; END])
                        Samples.frame 13) /\
    peekTag (reader st1) = (TAG_END, d, []) /\
    Samples.frame ++ encodeBody [Samples.showFrame; END] = writer st1 ++ d /\
    17 = wrap32 (headerUncompressedLength st1 + Z.of_nat (length d)) /\
    exists b0 b1 pay,
      d = b0 :: b1 :: pay /\ Z.shiftr (leUint16 b0 b1) 6 = TAG_END.
Proof.
  apply (completed_loop_writes_end_record_last
           (mkState (encodeBody [Samples.showFrame; END]) Samples.frame 13)
           (mkState [] (Samples.frame ++ encodeBody [Samples.showFrame; END])
                    17)).
  vm_compute. reflexivity.
Defined.

(** ** [main] by the header of the file *)

Lemma bytes_eqb_eq (a b : list byte) : bytes_eqb a b = true <-> a = b.
Proof.
  revert b. induction a as [|x a IH]; intros [|y b]; cbn [bytes_eqb];
    try (split; [discriminate | discriminate]); [tauto|].
  rewrite andb_true_iff, IH. split.
  - intros [E ->]. apply Byte.byte_dec_bl in E. subst. reflexivity.
  - intros E. injection E as -> ->. split; [apply Byte.byte_dec_lb|];
      reflexivity.
Qed.

Lemma bytes_eqb_neq (a b : list byte) : bytes_eqb a b = false <-> a <> b.
Proof.
  rewrite <- bytes_eqb_eq. destruct (bytes_eqb a b); split; congruence.
Qed.

(** X8. How [main] ends is settled by the first 8 bytes where it does
    not reach the loop: a file shorter than the header ends in the read
    error; "ZWS" in "Not supported yet"; "CWS" in the error of
    [zlib.NewReader] when that fails; any signature other than the three in
    the nil dereference; and in every other case [main] ends in one of the
    panics of the loop or completes. *)
Theorem main_outcome_by_header (z : Zlib) (swfFile : list byte) :
  (main z swfFile = HeaderReadError <-> (length swfFile < 8)%nat) /\
  (main z swfFile = NotSupportedYet <->
   (8 <= length swfFile)%nat /\ firstn 3 swfFile = LZMA_COMPRESSION) /\
  (main z swfFile = ZlibError <->
   (8 <= length swfFile)%nat /\ firstn 3 swfFile = ZLIB_COMPRESSION /\
   zlibNewReader z (skipn 8 swfFile) = None) /\
  (main z swfFile = NilDereference <->
   (8 <= length swfFile)%nat /\ firstn 3 swfFile <> NO_COMPRESSION /\
   firstn 3 swfFile <> ZLIB_COMPRESSION /\
   firstn 3 swfFile <> LZMA_COMPRESSION) /\
  main z swfFile <> OutOfFuel.
Proof.
  split; [|split; [|split; [|split; [|apply main_never_OutOfFuel]]]];
    (destruct swfFile as [|s0 [|s1 [|s2 [|v [|l0 [|l1 [|l2 [|l3 raw]]]]]]]];
     try (cbn [main length]; split;
          [try discriminate; intros _; lia
          | try reflexivity; intros H; exfalso; revert H;
            cbn [length]; intros H; lia])).
  - (* HeaderReadError *)
    split; [|cbn [length]; lia].
    intros M. exfalso. revert M. unfold main, selectStreams. cbn [Signature].
    destruct (bytes_eqb [s0; s1; s2] NO_COMPRESSION).
    + destruct (scanLoop _) as [[p|st]|]; discriminate.
    + destruct (bytes_eqb [s0; s1; s2] ZLIB_COMPRESSION).
      * destruct (zlibNewReader z raw); [|discriminate].
        destruct (scanLoop _) as [[p|st]|]; discriminate.
      * destruct (bytes_eqb [s0; s1; s2] LZMA_COMPRESSION); discriminate.
  - (* NotSupportedYet *)
    cbn [firstn length]. unfold main, selectStreams. cbn [Signature].
    destruct (bytes_eqb [s0; s1; s2] NO_COMPRESSION) eqn:N.
    + apply bytes_eqb_eq in N.
      split.
      * destruct (scanLoop _) as [[p|st]|]; discriminate.
      * intros [_ E]. rewrite N in E. discriminate.
    + destruct (bytes_eqb [s0; s1; s2] ZLIB_COMPRESSION) eqn:C.
      * apply bytes_eqb_eq in C. split.
        -- destruct (zlibNewReader z raw); [|discriminate].
           destruct (scanLoop _) as [[p|st]|]; discriminate.
        -- intros [_ E]. rewrite C in E. discriminate.
      * destruct (bytes_eqb [s0; s1; s2] LZMA_COMPRESSION) eqn:L.
        -- apply bytes_eqb_eq in L. split; [intros _; split; [lia|exact L]
                                            | reflexivity].
        -- apply bytes_eqb_neq in L. split; [discriminate|].
           intros [_ E]. contradiction.
  - (* ZlibError *)
    cbn [firstn skipn length]. unfold main, selectStreams. cbn [Signature].
    destruct (bytes_eqb [s0; s1; s2] NO_COMPRESSION) eqn:N.
    + apply bytes_eqb_eq in N. split.
      * destruct (scanLoop _) as [[p|st]|]; discriminate.
      * intros (_ & E & _). rewrite N in E. discriminate.
    + destruct (bytes_eqb [s0; s1; s2] ZLIB_COMPRESSION) eqn:C.
      * apply bytes_eqb_eq in C.
        destruct (zlibNewReader z raw) as [r|].
        -- split; [|intros (_ & _ & E); discriminate].
           destruct (scanLoop _) as [[p|st]|]; discriminate.
        -- split; [intros _; repeat split; [lia|exact C] | reflexivity].
      * apply bytes_eqb_neq in C.
        destruct (bytes_eqb [s0; s1; s2] LZMA_COMPRESSION);
          (split; [discriminate | intros (_ & E & _); contradiction]).
  - (* NilDereference *)
    cbn [firstn length]. unfold main, selectStreams. cbn [Signature].
    destruct (bytes_eqb [s0; s1; s2] NO_COMPRESSION) eqn:N.
    + apply bytes_eqb_eq in N. split.
      * destruct (scanLoop _) as [[p|st]|]; discriminate.
      * intros (_ & E & _). contradiction.
    + apply bytes_eqb_neq in N.
      destruct (bytes_eqb [s0; s1; s2] ZLIB_COMPRESSION) eqn:C.
      * apply bytes_eqb_eq in C. split.
        -- destruct (zlibNewReader z raw); [|discriminate].
           destruct (scanLoop _) as [[p|st]|]; discriminate.
        -- intros (_ & _ & E & _). contradiction.
      * apply bytes_eqb_neq in C.
        destruct (bytes_eqb [s0; s1; s2] LZMA_COMPRESSION) eqn:L.
        -- apply bytes_eqb_eq in L. split; [discriminate|].
           intros (_ & _ & _ & E). contradiction.
        -- apply bytes_eqb_neq in L.
           split; [intros _; repeat split; (lia || assumption) | reflexivity].
Qed.

(** ** The two codecs *)

(** X9. An uncompressed file is rewritten without the codec: on a file
    that starts with "FWS", [main] does the same with any two codecs. *)
Theorem plain_file_ignores_codec (z1 z2 : Zlib) (v l0 l1 l2 l3 : byte)
  (rest : list byte) :
  main z1 (x46 :: x57 :: x53 :: v :: l0 :: l1 :: l2 :: l3 :: rest) =
  main z2 (x46 :: x57 :: x53 :: v :: l0 :: l1 :: l2 :: l3 :: rest).
Proof.
  rewrite (main_streams z1 x46 x57 x53 v l0 l1 l2 l3 rest rest
             (Some ToOutFile) eq_refl).
  rewrite (main_streams z2 x46 x57 x53 v l0 l1 l2 l3 rest rest
             (Some ToOutFile) eq_refl).
  reflexivity.
Qed.

(** X10. Compression is transparent to the rewrite.  When the zlib reader
    opens on the rest of a "CWS" file and delivers the bytes [r], [main]
    does on that file what it does on the "FWS" file with [r] in the place
    of the compressed bytes: the same panic, or the same counter and the same
    bytes on the uncompressed side after the header, which reach the scratch
    file through the zlib writer. *)
Theorem compressed_file_as_plain (z : Zlib) (v l0 l1 l2 l3 : byte)
  (raw r : list byte) :
  zlibNewReader z raw = Some r ->
  match main z (x46 :: x57 :: x53 :: v :: l0 :: l1 :: l2 :: l3 :: r) with
  | Done _ unc len =>
    main z (x43 :: x57 :: x53 :: v :: l0 :: l1 :: l2 :: l3 :: raw) =
    Done (patchLength ([x43; x57; x53; v; l0; l1; l2; l3]
                       ++ zlibWriter z (skipn 8 unc)) len)
         ([x43; x57; x53; v; l0; l1; l2; l3] ++ skipn 8 unc)
         len
  | Panicked p =>
    main z (x43 :: x57 :: x53 :: v :: l0 :: l1 :: l2 :: l3 :: raw) =
    Panicked p
  | _ => False
  end.
Proof.
  intros Z.
  assert (S : selectStreams z [x43; x57; x53] raw
              = inr (Some r, Some ToZlibWriter)).
  { unfold selectStreams. cbn [bytes_eqb Byte.eqb]. cbn. rewrite Z.
    reflexivity. }
  rewrite (main_streams z x46 x57 x53 v l0 l1 l2 l3 r r
             (Some ToOutFile) eq_refl).
  rewrite (main_streams z x43 x57 x53 v l0 l1 l2 l3 raw r
             (Some ToZlibWriter) S).
  pose proof (scanLoop_total (frameHeader (emit [] 8 (mkState r [] 0)))) as T.
  destruct (scanLoop _) as [[p|st]|]; [reflexivity | | contradiction].
  cbn [app skipn]. reflexivity.
Qed.

Lemma compressed_file_as_plain_witness :
  match main Samples.stored
             (x46 :: x57 :: x53 :: x0a :: x00 :: x00 :: x00 :: x00
              :: Samples.frame ++ encodeBody [Samples.fileAttributes; END])
  with
  | Done _ unc len =>
    main Samples.stored
         (x43 :: x57 :: x53 :: x0a :: x00 :: x00 :: x00 :: x00
          :: Samples.frame ++ encodeBody [Samples.fileAttributes; END]) =
    Done (patchLength ([x43; x57; x53; x0a; x00; x00; x00; x00]
                       ++ zlibWriter Samples.stored (skipn 8 unc)) len)
         ([x43; x57; x53; x0a; x00; x00; x00; x00] ++ skipn 8 unc)
         len
  | Panicked p =>
    main Samples.stored
         (x43 :: x57 :: x53 :: x0a :: x00 :: x00 :: x00 :: x00
          :: Samples.frame ++ encodeBody [Samples.fileAttributes; END]) =
    Panicked p
  | _ => False
  end.
Proof.
  apply (compressed_file_as_plain Samples.stored x0a x00 x00 x00 x00
           (Samples.frame ++ encodeBody [Samples.fileAttributes; END])
           (Samples.frame ++ encodeBody [Samples.fileAttributes; END])).
  reflexivity.
Defined.

(** ** The header of the output *)

Lemma patchLength_parts (hdr body : list byte) (v : Z) :
  length hdr = 8%nat ->
  patchLength (hdr ++ body) v = firstn 4 hdr ++ binaryWrite32 v ++ body.
Proof.
  intros L. unfold patchLength.
  destruct hdr as [|a0 [|a1 [|a2 [|a3 [|a4 [|a5 [|a6 [|a7 [|a8 h]]]]]]]]];
    cbn [length] in L; try lia.
  reflexivity.
Qed.

(** X11. A completed rewrite keeps the signature and the version: the
    scratch file starts with the first four bytes of the input, then has the
    counter in bytes 4 to 7; the uncompressed side starts with the 8 bytes of
    the input header as they were.  For an "FWS" file the scratch file is the
    uncompressed side with bytes 4 to 7 overwritten, and as long. *)
Theorem output_header (z : Zlib) (swfFile out unc : list byte) (len : Z) :
  main z swfFile = Done out unc len ->
  firstn 4 out = firstn 4 swfFile /\
  firstn 4 (skipn 4 out) = binaryWrite32 len /\
  firstn 8 unc = firstn 8 swfFile /\
  (firstn 3 swfFile = NO_COMPRESSION ->
   out = patchLength unc len /\ length out = length unc).
Proof.
  intros M. apply main_Done in M.
  destruct M as (hdr & raw & r & w & st & -> & H8 & S & _ & -> & -> & ->).
  rewrite patchLength_parts by exact H8.
  destruct hdr as [|a0 [|a1 [|a2 [|a3 [|a4 [|a5 [|a6 [|a7 [|a8 h]]]]]]]]];
    cbn [length] in H8; try lia.
  split; [reflexivity|]. split; [reflexivity|]. split; [reflexivity|].
  cbn [firstn app]. intros N. unfold selectStreams in S.
  cbn [firstn] in S. rewrite N in S. cbn in S. injection S as <- <-.
  split; [reflexivity|].
  unfold patchLength. cbn [firstn skipn app length binaryWrite32].
  reflexivity.
Qed.

Lemma output_header_witness :
  firstn 4 (patchLength
              (Samples.plainFile [Samples.fileAttributes; TELEMETRY; END; END])
              27) = firstn 4 Samples.cutFile /\
  firstn 4 (skipn 4 (patchLength
                       (Samples.plainFile
                          [Samples.fileAttributes; TELEMETRY; END; END]) 27))
    = binaryWrite32 27 /\
  firstn 8 (Samples.plainFile [Samples.fileAttributes; TELEMETRY; END; END])
    = firstn 8 Samples.cutFile /\
  (firstn 3 Samples.cutFile = NO_COMPRESSION ->
   patchLength
     (Samples.plainFile [Samples.fileAttributes; TELEMETRY; END; END]) 27 =
   patchLength
     (Samples.plainFile [Samples.fileAttributes; TELEMETRY; END; END]) 27 /\
   length (patchLength
             (Samples.plainFile
                [Samples.fileAttributes; TELEMETRY; END; END]) 27) =
   length (Samples.plainFile [Samples.fileAttributes; TELEMETRY; END; END])).
Proof.
  apply (output_header Samples.stored Samples.cutFile).
  vm_compute. reflexivity.
Defined.

(** ** [main] on a stream of whole records *)

(** [main] on a file whose reader delivers the bounding box, the frame
    rate and count, and then [body]: the loop starts on [body] with these
    bytes written and 8 more counted for the header. *)
Lemma main_framed (z : Zlib) (s0 s1 s2 v l0 l1 l2 l3 fs : byte)
  (raw fd : list byte) (r0 r1 c0 c1 : byte) (body : list byte)
  (w : option sink) :
  selectStreams z [s0; s1; s2] raw =
    inr (Some (fs :: fd ++ [r0; r1; c0; c1] ++ body), w) ->
  length fd = Z.to_nat (numberOfBytes (nBitsOf (byteVal fs))) ->
  main z (s0 :: s1 :: s2 :: v :: l0 :: l1 :: l2 :: l3 :: raw) =
  match scanLoop (written (fs :: fd ++ [r0; r1; c0; c1]) body
                          (mkState [] [] 8)) with
  | None => OutOfFuel
  | Some (inl p) => Panicked p
  | Some (inr st) =>
    Done (patchLength
            ([s0; s1; s2; v; l0; l1; l2; l3] ++
             match w with
             | Some ToZlibWriter => zlibWriter z (writer st)
             | _ => writer st
             end) (headerUncompressedLength st))
         ([s0; s1; s2; v; l0; l1; l2; l3] ++ writer st)
         (headerUncompressedLength st)
  end.
Proof.
  intros S L.
  rewrite (main_streams z s0 s1 s2 v l0 l1 l2 l3 raw _ w S).
  set (st0 := emit [] 8 _).
  rewrite (frameHeader_frame fs fd r0 r1 c0 c1 body st0 L eq_refl).
  reflexivity.
Qed.

(** Up to any point of a stream with no telemetry, signed or end record
    in which every file-attributes record has a record after it that is not
    one: the loop has written the records with a telemetry record after each
    file-attributes record, and goes on. *)
Lemma scanLoop_insert_prefix_bounded (n : nat) (body : list tag)
  (b r : list byte) (st : state) :
  (length body <= n)%nat ->
  forallb validTag body = true -> forallb harmless body = true ->
  anchorsSeparated body = true ->
  scanLoop (written b (encodeBody body ++ r) st) =
  scanLoop (written (b ++ encodeBody (insertTelemetry body)) r st).
Proof.
  revert body b. induction n as [|n IH]; intros body b Ln V H A.
  - destruct body; [|cbn in Ln; lia].
    cbn [app encodeBody insertTelemetry]. rewrite app_nil_r. reflexivity.
  - destruct body as [|t rest].
    { apply (IH [] b); [cbn; lia | reflexivity..]. }
    cbn [forallb] in V, H. apply andb_true_iff in V, H.
    destruct V as [Vt V], H as [Ht H].
    cbn [length] in Ln. cbn [anchorsSeparated] in A.
    apply andb_true_iff in A. destruct A as [At A].
    destruct (harmless_codes t Ht) as (T & S & E).
    cbn [insertTelemetry].
    destruct (hasCode TAG_FILE_ATTRIBUTES t) eqn:F.
    + destruct rest as [|m rest']; [discriminate|].
      apply negb_true_iff in At.
      cbn [forallb] in V, H. apply andb_true_iff in V, H.
      destruct V as [Vm V], H as [Hm H].
      cbn [length] in Ln. cbn [anchorsSeparated] in A.
      apply andb_true_iff in A. destruct A as [_ A].
      cbn [app encodeBody]. rewrite <- !app_assoc.
      unfold hasCode in F. apply Z.eqb_eq in F.
      rewrite (scanLoop_anchor t m (encodeBody rest' ++ r)
                 (written b _ st) Vt F Vm eq_refl).
      rewrite written_written.
      rewrite (IH rest') by (assumption || lia).
      unfold hasCode at 1.
      destruct (tagCode m =? TAG_META).
      * cbn [app encodeBody]. rewrite telemetryBytes_encode, <- !app_assoc.
        reflexivity.
      * cbn [insertTelemetry]. rewrite At.
        cbn [app encodeBody]. rewrite telemetryBytes_encode, <- !app_assoc.
        reflexivity.
    + assert (P : passThrough t = true).
      { unfold passThrough, hasCode in *. rewrite T, S, F, E. reflexivity. }
      cbn [app encodeBody]. rewrite <- !app_assoc.
      rewrite (scanLoop_passThrough t (encodeBody rest ++ r)
                 (written b _ st) Vt P eq_refl).
      rewrite written_written.
      rewrite (IH rest) by (assumption || lia).
      rewrite <- app_assoc. reflexivity.
Qed.

(** X12. A telemetry or signed record that the loop reads at the top of a
    turn makes [main] panic, with the message of its kind, whatever follows
    it and whatever the codec.  The loop reads a record at the top of a turn
    when the records before it hold no telemetry, signed or end record, and
    every file-attributes record among them has a record after it that is
    not a file-attributes record (a record right after a file-attributes
    record is read ahead and copied instead). *)
Theorem guarded_record_panics (z : Zlib)
  (s0 s1 s2 v l0 l1 l2 l3 fs : byte) (raw fd : list byte)
  (r0 r1 c0 c1 : byte) (pre : list tag) (t : tag) (rest : list byte)
  (w : option sink) :
  selectStreams z [s0; s1; s2] raw =
    inr (Some (fs :: fd ++ [r0; r1; c0; c1] ++
               encodeBody pre ++ encodeTag t ++ rest), w) ->
  length fd = Z.to_nat (numberOfBytes (nBitsOf (byteVal fs))) ->
  forallb validTag pre = true -> forallb harmless pre = true ->
  anchorsSeparated pre = true -> validTag t = true ->
  (tagCode t = TAG_TELEMETRY ->
   main z (s0 :: s1 :: s2 :: v :: l0 :: l1 :: l2 :: l3 :: raw) =
   Panicked TelemetryAlreadyEnabled) /\
  (tagCode t = TAG_SIGNED_SWF ->
   main z (s0 :: s1 :: s2 :: v :: l0 :: l1 :: l2 :: l3 :: raw) =
   Panicked SignedNotSupported).
Proof.
  intros S L V H A Vt.
  rewrite (main_framed z s0 s1 s2 v l0 l1 l2 l3 fs raw fd r0 r1 c0 c1 _ w
             S L).
  rewrite (scanLoop_insert_prefix_bounded (length pre) pre _ _ _
             (Nat.le_refl _) V H A).
  split; intros C.
  - rewrite (scanLoop_telemetry t rest (written _ (encodeTag t ++ rest) _)
               Vt C eq_refl).
    reflexivity.
  - rewrite (scanLoop_signed t rest (written _ (encodeTag t ++ rest) _)
               Vt C eq_refl).
    reflexivity.
Qed.

Lemma guarded_record_panics_witness :
  (tagCode TELEMETRY = TAG_TELEMETRY ->
   main Samples.stored
        (x46 :: x57 :: x53 :: x0a :: x00 :: x00 :: x00 :: x00
         :: Samples.frame ++
            encodeBody [Samples.fileAttributes; Samples.metadata; TELEMETRY;
                        Samples.showFrame; END]) =
   Panicked TelemetryAlreadyEnabled) /\
  (tagCode TELEMETRY = TAG_SIGNED_SWF ->
   main Samples.stored
        (x46 :: x57 :: x53 :: x0a :: x00 :: x00 :: x00 :: x00
         :: Samples.frame ++
            encodeBody [Samples.fileAttributes; Samples.metadata; TELEMETRY;
                        Samples.showFrame; END]) =
   Panicked SignedNotSupported).
Proof.
  apply (guarded_record_panics Samples.stored
           x46 x57 x53 x0a x00 x00 x00 x00 x00
           (Samples.frame ++
            encodeBody [Samples.fileAttributes; Samples.metadata; TELEMETRY;
                        Samples.showFrame; END])
           [] x01 x00 x02 x00
           [Samples.fileAttributes; Samples.metadata] TELEMETRY
           (encodeBody [Samples.showFrame; END]) (Some ToOutFile));
    reflexivity.
Defined.

(** X13. What comes after the end record is dropped.  On an "FWS" file
    whose records are as in X12 up to the end record, the loop stops at the
    end record: bytes that follow it are neither read nor written, and
    [main] ends as it does on the file without them. *)
Theorem bytes_after_end_are_dropped (z : Zlib) (v l0 l1 l2 l3 fs : byte)
  (fd : list byte) (r0 r1 c0 c1 : byte) (body : list tag)
  (junk : list byte) :
  length fd = Z.to_nat (numberOfBytes (nBitsOf (byteVal fs))) ->
  forallb validTag body = true -> forallb harmless body = true ->
  anchorsSeparated body = true ->
  main z (x46 :: x57 :: x53 :: v :: l0 :: l1 :: l2 :: l3 ::
          fs :: fd ++ [r0; r1; c0; c1] ++
          encodeBody (body ++ [END]) ++ junk) =
  main z (x46 :: x57 :: x53 :: v :: l0 :: l1 :: l2 :: l3 ::
          fs :: fd ++ [r0; r1; c0; c1] ++ encodeBody (body ++ [END])) /\
  exists out len,
    main z (x46 :: x57 :: x53 :: v :: l0 :: l1 :: l2 :: l3 ::
            fs :: fd ++ [r0; r1; c0; c1] ++
            encodeBody (body ++ [END]) ++ junk) =
    Done out
         ([x46; x57; x53; v; l0; l1; l2; l3] ++
          fs :: fd ++ [r0; r1; c0; c1] ++
          encodeBody (insertTelemetry body ++ [END]))
         len.
Proof.
  intros L V H A.
  rewrite (main_framed z x46 x57 x53 v l0 l1 l2 l3 fs _ fd r0 r1 c0 c1
             (encodeBody (body ++ [END]) ++ junk) (Some ToOutFile)
             eq_refl L).
  rewrite (main_framed z x46 x57 x53 v l0 l1 l2 l3 fs _ fd r0 r1 c0 c1
             (encodeBody (body ++ [END])) (Some ToOutFile)
             eq_refl L).
  rewrite (scanLoop_insert_bounded (length body) body _ junk _
             (Nat.le_refl _) V H A).
  pose proof (scanLoop_insert_bounded (length body) body
                (fs :: fd ++ [r0; r1; c0; c1]) [] (mkState [] [] 8)
                (Nat.le_refl _) V H A) as E.
  rewrite app_nil_r in E. rewrite E.
  split; [reflexivity|].
  do 2 eexists. f_equal. cbn. rewrite <- app_assoc. reflexivity.
Qed.

Lemma bytes_after_end_are_dropped_witness :
  main Samples.stored
       (x46 :: x57 :: x53 :: x0a :: x00 :: x00 :: x00 :: x00 ::
        x00 :: [] ++ [x01; x00; x02; x00] ++
        encodeBody ([Samples.fileAttributes; Samples.showFrame] ++ [END])
        ++ [xff; xff; xff]) =
  main Samples.stored
       (x46 :: x57 :: x53 :: x0a :: x00 :: x00 :: x00 :: x00 ::
        x00 :: [] ++ [x01; x00; x02; x00] ++
        encodeBody ([Samples.fileAttributes; Samples.showFrame] ++ [END])) /\
  exists out len,
    main Samples.stored
         (x46 :: x57 :: x53 :: x0a :: x00 :: x00 :: x00 :: x00 ::
          x00 :: [] ++ [x01; x00; x02; x00] ++
          encodeBody ([Samples.fileAttributes; Samples.showFrame] ++ [END])
          ++ [xff; xff; xff]) =
    Done out
         ([x46; x57; x53; x0a; x00; x00; x00; x00] ++
          x00 :: [] ++ [x01; x00; x02; x00] ++
          encodeBody
            (insertTelemetry [Samples.fileAttributes; Samples.showFrame]
             ++ [END]))
         len.
Proof.
  apply (bytes_after_end_are_dropped Samples.stored x0a x00 x00 x00 x00 x00
           [] x01 x00 x02 x00 [Samples.fileAttributes; Samples.showFrame]
           [xff; xff; xff]);
    reflexivity.
Defined.




(** X15. A file that is nothing but its header is completed, not refused.
    When the reader delivers no byte at all, every read of the body comes
    back as zero: [main] writes a first byte 0, a zero frame rate and frame
    count and an end record, 7 bytes, and sets the length to 15. *)
Theorem empty_body_is_completed (z : Zlib) (s0 s1 s2 v l0 l1 l2 l3 : byte)
  (raw : list byte) (w : option sink) :
  selectStreams z [s0; s1; s2] raw = inr (Some [], w) ->
  main z (s0 :: s1 :: s2 :: v :: l0 :: l1 :: l2 :: l3 :: raw) =
  Done (patchLength
          ([s0; s1; s2; v; l0; l1; l2; l3] ++
           match w with
           | Some ToZlibWriter => zlibWriter z (repeat x00 7)
           | _ => repeat x00 7
           end) 15)
       ([s0; s1; s2; v; l0; l1; l2; l3] ++ repeat x00 7)
       15.
Proof.
  intros S.
  rewrite (main_streams z s0 s1 s2 v l0 l1 l2 l3 raw _ w S).
  reflexivity.
Qed.

Lemma empty_body_is_completed_witness :
  main Samples.stored Samples.plainHeader =
  Done (patchLength
          ([x46; x57; x53; x0a; x00; x00; x00; x00] ++ repeat x00 7) 15)
       ([x46; x57; x53; x0a; x00; x00; x00; x00] ++ repeat x00 7)
       15.
Proof.
  apply (empty_body_is_completed Samples.stored
           x46 x57 x53 x0a x00 x00 x00 x00 [] (Some ToOutFile)).
  reflexivity.
Defined.

(** ** Running the program on its own output *)

(** The loop up to and past a file-attributes record with a metadata
    record after it, both after records that are only copied. *)
Lemma scanLoop_to_metadata (pre : list tag) (fa m : tag) (b rest : list byte)
  (st : state) :
  forallb validTag pre = true -> forallb passThrough pre = true ->
  validTag fa = true -> tagCode fa = TAG_FILE_ATTRIBUTES ->
  validTag m = true -> tagCode m = TAG_META ->
  scanLoop (written b (encodeBody pre ++ encodeTag fa ++ encodeTag m ++ rest)
                    st) =
  scanLoop (written (b ++ encodeBody pre ++ encodeTag fa ++ encodeTag m
                     ++ telemetryBytes) rest st).
Proof.
  intros V P Vf Cf Vm Cm.
  rewrite (scanLoop_passThrough_list pre b _
             (encodeTag fa ++ encodeTag m ++ rest) st V P eq_refl).
  rewrite (scanLoop_anchor fa m rest
             (written (b ++ encodeBody pre)
                      (encodeTag fa ++ encodeTag m ++ rest) st)
             Vf Cf Vm eq_refl).
  rewrite written_written, Cm.
  cbn [Z.eqb TAG_META Pos.eqb]. rewrite <- !app_assoc. reflexivity.
Qed.

(** X16. Where a metadata record follows the file-attributes record, the
    rewrite cannot be done twice.  For an "FWS" file whose records are
    records that are only copied, a file-attributes record, a metadata
    record, and then records as in X12 up to the end record, [main]
    completes, and [main] on the scratch file it leaves panics with
    "Telemetry is already enabled". *)
Theorem second_run_after_metadata_panics (z : Zlib)
  (v l0 l1 l2 l3 fs : byte) (fd : list byte) (r0 r1 c0 c1 : byte)
  (pre : list tag) (fa m : tag) (post : list tag) :
  length fd = Z.to_nat (numberOfBytes (nBitsOf (byteVal fs))) ->
  forallb validTag pre = true -> forallb passThrough pre = true ->
  validTag fa = true -> tagCode fa = TAG_FILE_ATTRIBUTES ->
  validTag m = true -> tagCode m = TAG_META ->
  forallb validTag post = true -> forallb harmless post = true ->
  anchorsSeparated post = true ->
  exists out unc len,
    main z (x46 :: x57 :: x53 :: v :: l0 :: l1 :: l2 :: l3 ::
            fs :: fd ++ [r0; r1; c0; c1] ++
            encodeBody pre ++ encodeTag fa ++ encodeTag m ++
            encodeBody (post ++ [END])) = Done out unc len /\
    unc = [x46; x57; x53; v; l0; l1; l2; l3] ++
          fs :: fd ++ [r0; r1; c0; c1] ++
          encodeBody pre ++ encodeTag fa ++ encodeTag m ++ telemetryBytes ++
          encodeBody (insertTelemetry post ++ [END]) /\
    main z out = Panicked TelemetryAlreadyEnabled.
Proof.
  intros L V P Vf Cf Vm Cm Vp Hp Ap.
  rewrite (main_framed z x46 x57 x53 v l0 l1 l2 l3 fs _ fd r0 r1 c0 c1
             (encodeBody pre ++ encodeTag fa ++ encodeTag m ++
              encodeBody (post ++ [END])) (Some ToOutFile) eq_refl L).
  rewrite (scanLoop_to_metadata pre fa m _ _ _ V P Vf Cf Vm Cm).
  pose proof (scanLoop_insert_bounded (length post) post
                ((fs :: fd ++ [r0; r1; c0; c1]) ++ encodeBody pre ++
                 encodeTag fa ++ encodeTag m ++ telemetryBytes)
                [] (mkState [] [] 8) (Nat.le_refl _) Vp Hp Ap) as E.
  rewrite app_nil_r in E. rewrite E. clear E.
  set (tail := encodeBody (insertTelemetry post ++ [END])).
  assert (W : writer
                (written
                   (((fs :: fd ++ [r0; r1; c0; c1]) ++ encodeBody pre ++
                     encodeTag fa ++ encodeTag m ++ telemetryBytes) ++ tail)
                   [] (mkState [] [] 8)) =
              fs :: fd ++ [r0; r1; c0; c1] ++
              encodeBody pre ++ encodeTag fa ++ encodeTag m ++
              encodeTag TELEMETRY ++ tail).
  { cbn [writer written app]. rewrite <- !app_assoc. reflexivity. }
  rewrite W.
  eexists _, _, _. split; [reflexivity|]. split; [reflexivity|].
  rewrite patchLength_parts by reflexivity.
  cbn [firstn app binaryWrite32].
  rewrite (main_framed z x46 x57 x53 v _ _ _ _ fs _ fd r0 r1 c0 c1
             (encodeBody pre ++ encodeTag fa ++ encodeTag m ++
              encodeTag TELEMETRY ++ tail) (Some ToOutFile) eq_refl L).
  rewrite (scanLoop_to_metadata pre fa m _ _ _ V P Vf Cf Vm Cm).
  rewrite (scanLoop_telemetry TELEMETRY tail
             (written _ (encodeTag TELEMETRY ++ tail) _)
             eq_refl eq_refl eq_refl).
  reflexivity.
Qed.

Lemma second_run_after_metadata_panics_witness :
  exists out unc len,
    main Samples.stored
         (x46 :: x57 :: x53 :: x0a :: x00 :: x00 :: x00 :: x00 ::
          x00 :: [] ++ [x01; x00; x02; x00] ++
          encodeBody [Samples.setBackgroundColor] ++
          encodeTag Samples.fileAttributes ++ encodeTag Samples.metadata ++
          encodeBody ([Samples.showFrame] ++ [END])) = Done out unc len /\
    unc = [x46; x57; x53; x0a; x00; x00; x00; x00] ++
          x00 :: [] ++ [x01; x00; x02; x00] ++
          encodeBody [Samples.setBackgroundColor] ++
          encodeTag Samples.fileAttributes ++ encodeTag Samples.metadata ++
          telemetryBytes ++
          encodeBody (insertTelemetry [Samples.showFrame] ++ [END]) /\
    main Samples.stored out = Panicked TelemetryAlreadyEnabled.
Proof.
  apply (second_run_after_metadata_panics Samples.stored
           x0a x00 x00 x00 x00 x00 [] x01 x00 x02 x00
           [Samples.setBackgroundColor] Samples.fileAttributes
           Samples.metadata [Samples.showFrame]);
    reflexivity.
Defined.
